(** * A shallow embedding of the settings core of beast-mode-ext

    Sources: src/src/services/SchemaInferenceService.ts (SchemaInferenceService,
    NewSettingsTracker), src/src/services/ConfigurationService.ts
    (ConfigurationService) and src/src/utils/StateManager.ts (StateManager). *)

From Stdlib Require Import Ascii QArith.
From stdpp Require Import base gmap strings list sorting.

Open Scope string_scope.
Set Warnings "-register-all".

(** ** JavaScript values *)

(** JavaScript numbers. A finite IEEE-754 double is a dyadic rational and is
    kept as that exact rational; [-0] and [+0] are both [0], which [===],
    ToBoolean and [String] treat alike. The code does no arithmetic: which
    double a text denotes is decided by the runtime's parsers. *)
Inductive jsnum :=
| NaN
| Infinity (negative : bool)
| Finite (q : Q).

Definition js_zero : jsnum := Finite (inject_Z 0).
Definition js_one : jsnum := Finite (inject_Z 1).

(** JSON values as produced by [JSON.parse] and stored by VS Code. Objects are association lists in
    property order with duplicate keys already resolved (as [JSON.parse]
    does). [undefined] is never a JSON value: a possibly-undefined value is an
    [option json], [None] standing for [undefined]. *)
Inductive json :=
| JNull
| JBool (b : bool)
| JNum (n : jsnum)
| JStr (s : string)
| JArr (xs : list json)
| JObj (fields : list (string * json)).

(** Thrown JavaScript errors. *)
Inductive js_error := TypeError | SyntaxError.

(** Computations that may throw. *)
Inductive res (A : Type) := Ok (a : A) | Err (e : js_error).
Arguments Ok {A} a.
Arguments Err {A} e.

Global Instance res_ret : MRet res := fun A a => Ok a.
Global Instance res_bind : MBind res :=
  fun A B f m => match m with Ok a => f a | Err e => Err e end.

(** [try { m } catch { h }] *)
Definition try_catch {A} (m : res A) (h : A) : A :=
  match m with Ok a => a | Err _ => h end.

(** Built-ins of the JavaScript runtime the code calls but whose algorithms
    are not part of this repository: number printing ([Number::toString]),
    string-to-number conversion ([StringToNumber]), [JSON.parse] and the
    SHA-256 digest of node's [crypto] ([None] when the digest throws). *)
Class JsRuntime := {
  number_to_string : jsnum -> string;
  string_to_number : string -> jsnum;
  json_parse : string -> option json;
  sha256_hex : string -> option string
}.

Definition num_of_nat (n : nat) : jsnum := Finite (inject_Z (Z.of_nat n)).

Definition num_truthy (n : jsnum) : bool :=
  match n with NaN => false | Infinity _ => true | Finite q => negb (Qeq_bool q (inject_Z 0)) end.

(** ToBoolean of a possibly-undefined value (JavaScript truthiness). *)
Definition truthy (v : json) : bool :=
  match v with
  | JNull => false
  | JBool b => b
  | JNum n => num_truthy n
  | JStr s => negb (bool_decide (s = ""))
  | JArr _ | JObj _ => true
  end.

Definition truthy_opt (v : option json) : bool :=
  match v with Some v => truthy v | None => false end.

(** [a || b] on possibly-undefined values. *)
Definition js_or (a b : option json) : option json :=
  if truthy_opt a then a else b.

(** [a ?? b]: [null] and [undefined] both fall through. *)
Definition js_coalesce (a b : option json) : option json :=
  match a with None | Some JNull => b | _ => a end.

Definition is_array (v : option json) : bool :=
  match v with Some (JArr _) => true | _ => false end.

Definition is_string (v : option json) : bool :=
  match v with Some (JStr _) => true | _ => false end.

Definition is_number (v : option json) : bool :=
  match v with Some (JNum _) => true | _ => false end.

Fixpoint assoc_lookup (k : string) (l : list (string * json)) : option json :=
  match l with
  | [] => None
  | (k', v) :: l => if bool_decide (k = k') then Some v else assoc_lookup k l
  end.

Definition digit_value (c : ascii) : option nat :=
  let n := nat_of_ascii c in
  if (48 <=? n)%nat && (n <=? 57)%nat then Some (n - 48)%nat else None.

Fixpoint digits_value (s : string) (acc : nat) : option nat :=
  match s with
  | EmptyString => Some acc
  | String c s => d ← digit_value c; digits_value s (10 * acc + d)%nat
  end.

(** A property name that is a canonical array index ("0", "1", "17", ...). *)
Definition array_index (p : string) : option nat :=
  match p with
  | EmptyString => None
  | String "0" EmptyString => Some 0%nat
  | String "0" _ => None
  | _ => digits_value p 0
  end.

(** Property read [v.p] on a possibly-undefined value: reading a property of
    [null] or [undefined] throws a TypeError; arrays and strings have a
    [length] and their indices; the remaining properties the code reads
    (none of them is inherited from [Object.prototype]) are own properties. *)
Definition get (v : option json) (p : string) : res (option json) :=
  match v with
  | None | Some JNull => Err TypeError
  | Some (JObj fs) => Ok (assoc_lookup p fs)
  | Some (JArr xs) =>
      Ok (if bool_decide (p = "length") then Some (JNum (num_of_nat (length xs)))
          else match array_index p with Some i => xs !! i | None => None end)
  | Some (JStr s) =>
      Ok (if bool_decide (p = "length") then Some (JNum (num_of_nat (String.length s)))
          else match array_index p with
               | Some i => (fun c => JStr (String c EmptyString)) <$> String.get i s
               | None => None
               end)
  | Some _ => Ok None
  end.

(** [Object.prototype.hasOwnProperty.call(v, p)] for a truthy [v]. *)
Definition has_own (v : json) (p : string) : bool :=
  match v with
  | JObj fs => bool_decide (is_Some (assoc_lookup p fs))
  | JArr xs =>
      bool_decide (p = "length") ||
      match array_index p with Some i => (i <? length xs)%nat | None => false end
  | JStr s =>
      bool_decide (p = "length") ||
      match array_index p with Some i => (i <? String.length s)%nat | None => false end
  | _ => false
  end.

(** Optional chaining [v?.p]. *)
Definition get_opt (v : option json) (p : string) : option json :=
  match v with
  | None | Some JNull => None
  | _ => try_catch (get v p) None
  end.

(** ** The setting definition produced by the enricher (types/index.ts) *)

Record SettingOption := {
  opt_value : json;
  opt_label : option json
}.

(** [type] is a JS value: the enricher stores either one of its own four
    strings or the raw entry's [type] field. *)
Record SettingDefinition := {
  sd_key : string;
  sd_type : json;
  sd_title : json;
  sd_description : json;
  sd_group : json;
  sd_min : option json;
  sd_max : option json;
  sd_step : option json;
  sd_options : option (list SettingOption);
  sd_requires : option (list string);
  sd_default : option json;
  sd_recommended : option json;
  sd_info : option string;
  sd_hasRecommendation : option bool;
  sd_matchesRecommendation : option bool
}.

(** ** [JSON.stringify] of a list of strings *)

Definition hex_digit (n : nat) : ascii :=
  ascii_of_nat (if n <? 10 then 48 + n else 87 + n)%nat.

(** The double quote character (code 34). *)
Definition quote_char : ascii := ascii_of_nat 34.

Definition json_escape_char (c : ascii) : string :=
  let n := nat_of_ascii c in
  if bool_decide (c = quote_char) then String "\" (String quote_char "")
  else if bool_decide (c = "\"%char) then String "\" (String "\" "")
  else if bool_decide (n = 8)%nat then "\b"
  else if bool_decide (n = 9)%nat then "\t"
  else if bool_decide (n = 10)%nat then "\n"
  else if bool_decide (n = 12)%nat then "\f"
  else if bool_decide (n = 13)%nat then "\r"
  else if (n <? 32)%nat then
    String "\" (String "u" (String "0" (String "0"
      (String (hex_digit (n / 16)) (String (hex_digit (n mod 16)) "")))))
  else String c "".

Fixpoint json_escape (s : string) : string :=
  match s with
  | EmptyString => ""
  | String c s => json_escape_char c ++ json_escape s
  end.

Definition json_quote (s : string) : string := String quote_char (json_escape s ++ String quote_char "").

Fixpoint join (sep : string) (l : list string) : string :=
  match l with
  | [] => ""
  | [x] => x
  | x :: l => x ++ sep ++ join sep l
  end.

Definition stringify_strings (l : list string) : string :=
  "[" ++ join "," (map json_quote l) ++ "]".

(** [Array.prototype.sort] without comparator on strings: ascending order of
    code units (ASCII keys), computed as a stable merge sort. *)
Definition js_sort_strings (l : list string) : list string := merge_sort String.le l.

(** ** Type conversions of the runtime *)

Section Conversions.
Context `{RT : JsRuntime}.

(** [String(v)]. Arrays print through [Array.prototype.join], where [null]
    elements print as the empty string; plain objects print as
    ["[object Object]"]. *)
Fixpoint js_String (v : json) : string :=
  match v with
  | JNull => "null"
  | JBool b => if b then "true" else "false"
  | JNum n => number_to_string n
  | JStr s => s
  | JArr xs => join "," (map (fun x => match x with JNull => "" | _ => js_String x end) xs)
  | JObj _ => "[object Object]"
  end.

Definition js_String_opt (v : option json) : string :=
  match v with None => "undefined" | Some v => js_String v end.

(** [Number(v)]: arrays and objects go through their string form. *)
Definition js_Number (v : option json) : jsnum :=
  match v with
  | None => NaN
  | Some JNull => js_zero
  | Some (JBool b) => if b then js_one else js_zero
  | Some (JNum n) => n
  | Some (JStr s) => string_to_number s
  | Some v => string_to_number (js_String v)
  end.

(** [JSON.stringify] of a JSON value (never [undefined] inside one). *)
Fixpoint json_stringify (v : json) : string :=
  match v with
  | JNull => "null"
  | JBool b => if b then "true" else "false"
  | JNum n => match n with Finite _ => number_to_string n | _ => "null" end
  | JStr s => json_quote s
  | JArr xs => "[" ++ join "," (map json_stringify xs) ++ "]"
  | JObj fs => "{" ++ join "," (map (fun kv => json_quote kv.1 ++ ":" ++ json_stringify kv.2) fs) ++ "}"
  end.

(** [JSON.stringify(v)] returns [undefined] for [undefined]. *)
Definition JSON_stringify (v : option json) : option string := json_stringify <$> v.

End Conversions.

(** [Number.isInteger(n)]. *)
Definition number_is_integer (n : jsnum) : bool :=
  match n with Finite q => (Qnum q mod Z.pos (Qden q) =? 0)%Z | _ => false end.

(** [x === y] on numbers: [NaN] equals nothing. *)
Definition num_eqb (x y : jsnum) : bool :=
  match x, y with
  | Finite a, Finite b => Qeq_bool a b
  | Infinity a, Infinity b => Bool.eqb a b
  | _, _ => false
  end.

(** [a === b] on values obtained from two different sources: numbers compare
    as doubles, other primitives by value, and two arrays or objects
    from different allocations are never identical. *)
Definition strict_equals (a b : option json) : bool :=
  match a, b with
  | None, None => true
  | Some JNull, Some JNull => true
  | Some (JBool x), Some (JBool y) => Bool.eqb x y
  | Some (JNum x), Some (JNum y) => num_eqb x y
  | Some (JStr x), Some (JStr y) => bool_decide (x = y)
  | _, _ => false
  end.

(** [v === undefined || v === null] *)
Definition nullish (v : option json) : bool :=
  match v with None | Some JNull => true | _ => false end.

(** [a || b] when [b] is never undefined. *)
Definition js_or_else (a : option json) (b : json) : json :=
  match a with Some v => if truthy v then v else b | None => b end.

(** Own enumerable properties of an object, as spread by [{...v}]. *)
Definition obj_fields (v : json) : list (string * json) :=
  match v with JObj fs => fs | _ => [] end.

(** [o[k] = v] on an object literal; assigning [undefined] is modelled by
    dropping the property, which every later read treats the same way. *)
Fixpoint obj_set (k : string) (v : option json) (fs : list (string * json)) : list (string * json) :=
  match fs with
  | [] => match v with Some x => [(k, x)] | None => [] end
  | (k', x') :: fs =>
      if bool_decide (k = k')
      then match v with Some x => (k, x) :: fs | None => obj_set k None fs end
      else (k', x') :: obj_set k v fs
  end.

(** The [Some]s of a list, in order. *)
Definition cat_options {A} (l : list (option A)) : list A := omap (fun o : option A => o) l.

(** [Array.prototype.map] with a callback that may throw. *)
Fixpoint map_res {A B} (f : A -> res B) (l : list A) : res (list B) :=
  match l with
  | [] => Ok []
  | x :: l => y ← f x; ys ← map_res f l; Ok (y :: ys)
  end.

(** [xs.map(f)] on a property value: throws unless it is an array. *)
Definition js_array_map {B} (v : option json) (f : option json -> res B) : res (list B) :=
  match v with
  | Some (JArr xs) => map_res (fun x => f (Some x)) xs
  | _ => Err TypeError
  end.

Fixpoint split_on (c : ascii) (s : string) : list string :=
  match s with
  | EmptyString => [""]
  | String d s =>
      match split_on c s with
      | [] => [] (* unreachable: split_on never returns [] *)
      | w :: ws => if bool_decide (d = c) then "" :: w :: ws else String d w :: ws
      end
  end.

Definition ascii_to_upper (c : ascii) : ascii :=
  let n := nat_of_ascii c in
  if (97 <=? n)%nat && (n <=? 122)%nat then ascii_of_nat (n - 32) else c.

(** [s.charAt(0).toUpperCase() + s.slice(1)] (letters of ASCII). *)
Definition capitalize (s : string) : string :=
  match s with EmptyString => "" | String c s => String (ascii_to_upper c) s end.

Definition trim_char (c : ascii) : bool :=
  let n := nat_of_ascii c in bool_decide (n = 32 \/ (9 <= n <= 13))%nat.

Fixpoint trim_left (s : string) : string :=
  match s with
  | String c s' => if trim_char c then trim_left s' else s
  | EmptyString => EmptyString
  end.

Fixpoint string_rev (s acc : string) : string :=
  match s with EmptyString => acc | String c s => string_rev s (String c acc) end.

(** [String.prototype.trim] on ASCII white space. *)
Definition trim (s : string) : string :=
  string_rev (trim_left (string_rev (trim_left s) "")) "".

(** ** NewSettingsTracker (SchemaInferenceService.ts, lines 784-953) *)

Module Tracker.
Section Tracker.
Context `{RT : JsRuntime}.

(** [NewSettingsState]: key -> ISO timestamp, last hash, first-run flag. *)
Record NewSettingsState := {
  seenSettings : gmap string string;
  lastConfigHash : option string;
  firstRun : bool
}.

(** The tracker object: its in-memory [state] and the copy last written to
    [globalState] by [saveState] (the version and [lastUpdated] fields of the
    stored document are not modelled). A failing [globalState.update] is
    swallowed by [saveState] and leaves the in-memory state as it is. *)
Record NewSettingsTrackerObj := {
  state : NewSettingsState;
  stored : option NewSettingsState
}.

Definition createDefaultState : NewSettingsState :=
  {| seenSettings := ∅; lastConfigHash := None; firstRun := true |}.

Definition set_state (t : NewSettingsTrackerObj) (s : NewSettingsState) :=
  {| state := s; stored := stored t |}.

Definition saveState (t : NewSettingsTrackerObj) : NewSettingsTrackerObj :=
  {| state := state t; stored := Some (state t) |}.

(** [calculateConfigHash]: SHA-256 of the JSON of the sorted keys, with the
    [join('|')] fallback when the digest throws. *)
Definition calculateConfigHash (definitions : list SettingDefinition) : string :=
  let keys := js_sort_strings (map sd_key definitions) in
  match sha256_hex (stringify_strings keys) with
  | Some h => h
  | None => join "|" keys
  end.

(** [seenSettings[key] = timestamp] for each key. *)
Definition mark_keys (now : string) (keys : list string) (m : gmap string string) :=
  foldl (fun m k => <[k := now]> m) m keys.

Definition markAsSeen (now : string) (settingKeys : list string) (t : NewSettingsTrackerObj) :=
  let s := state t in
  saveState (set_state t {| seenSettings := mark_keys now settingKeys (seenSettings s);
                            lastConfigHash := lastConfigHash s; firstRun := firstRun s |}).

Definition markAllAsSeen (now : string) (definitions : list SettingDefinition)
    (t : NewSettingsTrackerObj) :=
  let s := state t in
  saveState (set_state t {| seenSettings := mark_keys now (map sd_key definitions) (seenSettings s);
                            lastConfigHash := lastConfigHash s; firstRun := firstRun s |}).

Definition set_firstRun (b : bool) (t : NewSettingsTrackerObj) :=
  let s := state t in
  set_state t {| seenSettings := seenSettings s; lastConfigHash := lastConfigHash s; firstRun := b |}.

Definition set_hash (h : string) (t : NewSettingsTrackerObj) :=
  let s := state t in
  set_state t {| seenSettings := seenSettings s; lastConfigHash := Some h; firstRun := firstRun s |}.

Definition initialize (now : string) (definitions : list SettingDefinition)
    (t : NewSettingsTrackerObj) : NewSettingsTrackerObj :=
  let t1 := if firstRun (state t)
            then saveState (set_firstRun false (markAllAsSeen now definitions t))
            else t in
  let configHash := calculateConfigHash definitions in
  saveState (set_hash configHash t1).

(** [!this.state.seenSettings[settingKey]]: a stored string is falsy only
    when it is empty. *)
Definition isSettingNew (settingKey : string) (t : NewSettingsTrackerObj) : bool :=
  match seenSettings (state t) !! settingKey with
  | Some ts => bool_decide (ts = "")
  | None => true
  end.

Definition detectNewSettings (definitions : list SettingDefinition) (t : NewSettingsTrackerObj)
    : list SettingDefinition * NewSettingsTrackerObj :=
  let currentConfigHash := calculateConfigHash definitions in
  if bool_decide (lastConfigHash (state t) = Some currentConfigHash) then ([], t)
  else
    let newSettings := filter (fun d => isSettingNew (sd_key d) t = true) definitions in
    (newSettings, saveState (set_hash currentConfigHash t)).

Definition getNewSettingsCount (definitions : list SettingDefinition) (t : NewSettingsTrackerObj) : nat :=
  length (filter (fun d => isSettingNew (sd_key d) t = true) definitions).

Definition clearState (t : NewSettingsTrackerObj) : NewSettingsTrackerObj :=
  saveState (set_state t createDefaultState).

(** The tracker's public operations, for reasoning about sequences of calls. *)
Inductive op :=
| OpInitialize (now : string) (defs : list SettingDefinition)
| OpDetectNewSettings (defs : list SettingDefinition)
| OpMarkAsSeen (now : string) (keys : list string)
| OpMarkAllAsSeen (now : string) (defs : list SettingDefinition)
| OpClearState.

Definition step (o : op) (t : NewSettingsTrackerObj) : NewSettingsTrackerObj :=
  match o with
  | OpInitialize now defs => initialize now defs t
  | OpDetectNewSettings defs => snd (detectNewSettings defs t)
  | OpMarkAsSeen now keys => markAsSeen now keys t
  | OpMarkAllAsSeen now defs => markAllAsSeen now defs t
  | OpClearState => clearState t
  end.

Fixpoint run (ops : list op) (t : NewSettingsTrackerObj) : NewSettingsTrackerObj :=
  match ops with
  | [] => t
  | o :: ops => run ops (step o t)
  end.

(** [new Date().toISOString()] is never empty. *)
Definition op_timestamp_ok (o : op) : Prop :=
  match o with
  | OpInitialize now _ | OpMarkAsSeen now _ | OpMarkAllAsSeen now _ => now <> ""
  | _ => True
  end.

Definition op_is_clear (o : op) : bool :=
  match o with OpClearState => true | _ => false end.

End Tracker.
End Tracker.

(** ** The VS Code host *)

(** [getConfiguration().inspect(key)]: the value at each scope. *)
Record InspectInfo := {
  globalValue : option json;
  workspaceValue : option json;
  workspaceFolderValue : option json;
  defaultValue : option json
}.

(** An entry of [vscode.extensions.all]. *)
Record Extension := {
  ext_id : string;
  packageJSON : option json
}.

(** What the services read from the host: the installed extensions, this
    extension's id, the configuration ([inspect] may throw and may return
    [undefined]; [update] may throw), [extensions.getExtension(id) !==
    undefined], the network as seen through [HttpService] (the text obtained
    for a configured URL with the given [useCache] flag: [resolveToRawUrl]
    then [fetchGistContent] or [get(...).data]; [None] when one of them
    throws or yields nothing), and the bundled [media/config.json]
    ([None] when it is missing or unreadable). *)
Record Host := {
  extensions_all : list Extension;
  context_extension_id : string;
  inspect : string -> res (option InspectInfo);
  config_get : string -> option json;
  config_update : string -> json -> res unit;
  getExtension : string -> bool;
  fetch_text : string -> bool -> option string;
  bundled_config : option string
}.

(** ** SchemaInferenceService (SchemaInferenceService.ts, lines 7-275) *)

Record SchemaLookupResult := {
  schema : option json;
  extensionId : string
}.

Definition is_str (v : option json) (s : string) : bool :=
  match v with Some (JStr x) => bool_decide (x = s) | _ => false end.

Fixpoint find_in_buckets (key ext : string) (buckets : list json) : res (option SchemaLookupResult) :=
  match buckets with
  | [] => Ok None
  | bucket :: buckets =>
      props ← get (Some bucket) "properties";
      match props with
      | Some pv =>
          if truthy pv && has_own pv key then
            sch ← get props key; Ok (Some {| schema := sch; extensionId := ext |})
          else find_in_buckets key ext buckets
      | None => find_in_buckets key ext buckets
      end
  end.

Fixpoint find_in_extensions (key : string) (exts : list Extension) : res (option SchemaLookupResult) :=
  match exts with
  | [] => Ok None
  | ext :: exts =>
      c ← (if truthy_opt (packageJSON ext) then get (packageJSON ext) "contributes"
           else Ok (packageJSON ext));
      let contrib := Some (js_or_else c (JObj [])) in
      config ← get contrib "configuration";
      if negb (truthy_opt config) then find_in_extensions key exts else
      let buckets := match config with Some (JArr bs) => bs | Some c => [c] | None => [] end in
      r ← find_in_buckets key (ext_id ext) buckets;
      match r with Some _ => Ok r | None => find_in_extensions key exts end
  end.

Definition findSchemaForKey (h : Host) (key : string) : res (option SchemaLookupResult) :=
  find_in_extensions key (extensions_all h).

Definition first_segment (key : string) : string :=
  match split_on "." key with w :: _ => w | [] => key end.

(** [key.split('.').slice(-1)[0]] *)
Definition last_segment (key : string) : string := default key (last (split_on "." key)).

Definition deriveGroupFromKey (key : string) : string :=
  let first := if bool_decide (first_segment key = "") then key else first_segment key in
  if bool_decide (first = "github") then "GitHub Copilot"
  else if bool_decide (first = "githubPullRequests") then "GitHub PRs"
  else if bool_decide (first = "terminal") then "Terminal"
  else if bool_decide (first = "workbench") then "Workbench"
  else if bool_decide (first = "editor") then "Editor"
  else if bool_decide (first = "chat") then "Chat"
  else if bool_decide (first = "git") then "Git"
  else if bool_decide (first = "window") then "Window"
  else capitalize first.

Definition normalizeRequires (input : option json) : list string :=
  if negb (truthy_opt input) then []
  else match input with
       | Some (JStr s) => [s]
       | Some (JArr xs) => omap (fun x => match x with JStr s => Some s | _ => None end) xs
       | _ => []
       end.

(** [Array.from(new Set(l))]: first occurrences, in order. *)
Fixpoint set_from_list (seen l : list string) : list string :=
  match l with
  | [] => []
  | x :: l => if bool_decide (x ∈ seen) then set_from_list seen l else x :: set_from_list (x :: seen) l
  end.

Definition mergeRequires (a b : list string) : list string := set_from_list [] (a ++ b).

(** The locals [type, options, min, max, step, requires, defaultVal] that
    the three passes of [enrichSettingDefinition] update in turn. *)
Record Props := {
  p_type : json;
  p_options : option (list SettingOption);
  p_min : option json;
  p_max : option json;
  p_step : option json;
  p_requires : option (list string);
  p_default : option json
}.

Section Enricher.
Context `{RT : JsRuntime}.

Definition enum_option (descs : option json) (i : nat) (v : json) : SettingOption :=
  {| opt_value := JStr (js_String v);
     opt_label := match descs with Some (JArr ds) => ds !! i | _ => None end |}.

(** [.filter(e => e && (e.const !== undefined || e.enum))] *)
Definition alt_keep (e : json) : bool :=
  truthy e && (bool_decide (is_Some (get_opt (Some e) "const")) || truthy_opt (get_opt (Some e) "enum")).

(** [.map(e => e.const ?? (Array.isArray(e.enum) ? e.enum[0] : undefined))] *)
Definition alt_value (e : json) : option json :=
  js_coalesce (get_opt (Some e) "const")
    (if is_array (get_opt (Some e) "enum") then get_opt (get_opt (Some e) "enum") "0" else None).

(** Schema pass (lines 29-76). *)
Definition schema_pass (found : option SchemaLookupResult) (self_id : string) (p : Props) : res Props :=
  let sch := found ≫= schema in
  if negb (truthy_opt sch) then Ok p else
  st ← get sch "type";
  sType ← (if is_array st then get st "0" else Ok st);
  let '(ty, step) :=
    if is_str sType "boolean" then (JStr "boolean", p_step p)
    else if is_str sType "number" || is_str sType "integer" then
      (JStr "number", if is_str sType "integer" then Some (JNum js_one) else None)
    else if is_str sType "object" || is_str sType "array" then (JStr "json", p_step p)
    else (JStr "string", p_step p) in
  en ← get sch "enum";
  options ←
    (if truthy_opt en && is_array en then
       descs ← get sch "enumDescriptions";
       match en with
       | Some (JArr xs) => Ok (Some (imap (enum_option (if is_array descs then descs else None)) xs))
       | _ => Ok (p_options p)
       end
     else
       oneOf ← get sch "oneOf";
       anyOf ← get sch "anyOf";
       if truthy_opt oneOf || truthy_opt anyOf then
         match js_or oneOf anyOf with
         | Some (JArr alts) =>
             let enums := omap alt_value (filter (fun e => alt_keep e = true) alts) in
             Ok (if bool_decide (enums = []) then p_options p
                 else Some (map (fun v => {| opt_value := JStr (js_String v); opt_label := None |}) enums))
         | _ => Err TypeError
         end
       else Ok (p_options p));
  mn ← get sch "minimum";
  mx ← get sch "maximum";
  dflt ← get sch "default";
  let requires :=
    match found with
    | Some f => if negb (bool_decide (extensionId f = "")) && negb (bool_decide (extensionId f = self_id))
                then Some [extensionId f] else p_requires p
    | None => p_requires p
    end in
  Ok {| p_type := ty; p_options := options;
        p_min := if is_number mn then mn else p_min p;
        p_max := if is_number mx then mx else p_max p;
        p_step := step; p_requires := requires;
        p_default := match p_default p, dflt with None, Some _ => dflt | _, _ => p_default p end |}.

(** Live-value pass (lines 78-106); a throwing [inspect] leaves [p]. *)
Definition inspect_pass (h : Host) (key : string) (p : Props) : Props :=
  match inspect h key with
  | Err _ => p
  | Ok info =>
      let at_scope f := match info with Some i => f i | None => None end in
      let sample := js_coalesce (js_coalesce (js_coalesce (at_scope globalValue)
                      (at_scope workspaceValue)) (at_scope workspaceFolderValue)) (at_scope defaultValue) in
      match sample with
      | None => p
      | Some v =>
          let '(ty, step) :=
            match v with
            | JBool _ => (JStr "boolean", p_step p)
            | JNum n => (JStr "number",
                         if number_is_integer n && bool_decide (p_step p = None)
                         then Some (JNum js_one) else p_step p)
            | JArr _ | JObj _ => (JStr "json", p_step p)
            | _ => (JStr "string", p_step p)
            end in
          {| p_type := ty; p_options := p_options p; p_min := p_min p; p_max := p_max p;
             p_step := step; p_requires := p_requires p;
             p_default := match p_default p, at_scope defaultValue with
                          | None, Some _ => at_scope defaultValue
                          | _, _ => p_default p
                          end |}
      end
  end.

Definition option_of_config (o : option json) : res SettingOption :=
  ov ← get o "value";
  ol ← get o "label";
  Ok {| opt_value := JStr (js_String_opt ov); opt_label := ol |}.

(** Explicit-override pass (lines 108-133). *)
Definition override_pass (config : option json) (p : Props) : res Props :=
  ct ← get config "type";
  co ← get config "options";
  options ←
    (if truthy_opt co then
       len ← get co "length";
       if truthy_opt len then (opts ← js_array_map co option_of_config; Ok (Some opts))
       else Ok (p_options p)
     else Ok (p_options p));
  cmin ← get config "min";
  cmax ← get config "max";
  cstep ← get config "step";
  creq ← get config "requires";
  requires ←
    (if truthy_opt creq then
       len ← get creq "length";
       Ok (if truthy_opt len then Some (normalizeRequires creq) else p_requires p)
     else Ok (p_requires p));
  cdef ← get config "default";
  Ok {| p_type := js_or_else ct (p_type p); p_options := options;
        p_min := if bool_decide (cmin = None) then p_min p else cmin;
        p_max := if bool_decide (cmax = None) then p_max p else cmax;
        p_step := if bool_decide (cstep = None) then p_step p else cstep;
        p_requires := requires;
        p_default := if bool_decide (cdef = None) then p_default p else cdef |}.

Definition enrichSettingDefinition (h : Host) (key : string) (config : option json)
    : res SettingDefinition :=
  found ← findSchemaForKey h key;
  g ← get config "group";
  let group := js_or_else g (JStr (deriveGroupFromKey key)) in
  t ← get config "title";
  let label := js_or_else t (JStr (last_segment key)) in
  cdef ← get config "default";
  let p0 := {| p_type := JStr "string"; p_options := None; p_min := None; p_max := None;
               p_step := None; p_requires := None; p_default := cdef |} in
  p1 ← schema_pass found (context_extension_id h) p0;
  let p2 := inspect_pass h key p1 in
  p3 ← override_pass config p2;
  desc ← get config "description";
  recommended ← get config "recommended";
  Ok {| sd_key := key; sd_type := p_type p3; sd_title := label;
        sd_description := js_or_else desc label; sd_group := group;
        sd_min := p_min p3; sd_max := p_max p3; sd_step := p_step p3;
        sd_options := p_options p3; sd_requires := p_requires p3;
        sd_default := p_default p3; sd_recommended := recommended;
        sd_info := None; sd_hasRecommendation := None; sd_matchesRecommendation := None |}.

End Enricher.

(** ** ConfigurationService (ConfigurationService.ts, lines 9-378) *)

Definition with_info (d : SettingDefinition) (info : option json) : SettingDefinition :=
  match info with
  | Some (JStr i) =>
      {| sd_key := sd_key d; sd_type := sd_type d; sd_title := sd_title d;
         sd_description := sd_description d; sd_group := sd_group d;
         sd_min := sd_min d; sd_max := sd_max d; sd_step := sd_step d;
         sd_options := sd_options d; sd_requires := sd_requires d;
         sd_default := sd_default d; sd_recommended := sd_recommended d;
         sd_info := Some i; sd_hasRecommendation := sd_hasRecommendation d;
         sd_matchesRecommendation := sd_matchesRecommendation d |}
  | _ => d
  end.

Inductive LoadSource := Remote | Local.

Record ConfigurationLoadResult := {
  definitions : list SettingDefinition;
  source : LoadSource;
  timestamp : string
}.

Section Configuration.
Context `{RT : JsRuntime}.

(** [x.requires || x.requiresExtensions || x.requiresExtension] *)
Definition requires_field (x : json) : res (option json) :=
  r1 ← get (Some x) "requires";
  r2 ← get (Some x) "requiresExtensions";
  r3 ← get (Some x) "requiresExtension";
  Ok (js_or r1 (js_or r2 r3)).

(** The config object passed to the enricher for a group member:
    [{...setting, group, recommended, requires}]. *)
Definition member_config (groupName : json) (recommended : option json)
    (requires : list string) (setting : json) : json :=
  JObj (obj_set "requires" (Some (JArr (map JStr requires)))
         (obj_set "recommended" recommended
           (obj_set "group" (Some groupName) (obj_fields setting)))).

(** One iteration of the loop over [entry.settings] (lines 307-331);
    [None] is [continue]. *)
Definition parse_group_member (h : Host) (groupName : json) (groupRequires : list string)
    (groupRecommended : option json) (setting : json) : res (option SettingDefinition) :=
  if negb (truthy setting) then Ok None else
  k ← get (Some setting) "key";
  match k with
  | Some (JStr key) =>
      srec ← get (Some setting) "recommended";
      sreq ← requires_field setting;
      let recommended := if bool_decide (srec = None) then groupRecommended else srec in
      let requires := mergeRequires groupRequires (normalizeRequires sreq) in
      enriched ← enrichSettingDefinition h key
                   (Some (member_config groupName recommended requires setting));
      info ← get (Some setting) "info";
      Ok (Some (with_info enriched info))
  | _ => Ok None
  end.

(** A grouped entry [{ group, settings: [...] }] (lines 296-333). *)
Definition parse_group_entry (h : Host) (entry : json) (groupName : string) (members : list json)
    : res (list SettingDefinition) :=
  greq ← requires_field entry;
  let groupRequires := normalizeRequires greq in
  groupRecommended ← get (Some entry) "recommended";
  ds ← map_res (parse_group_member h (JStr groupName) groupRequires groupRecommended) members;
  Ok (cat_options ds).

(** A single entry [{ key, ... }] (lines 335-342). *)
Definition parse_flat_entry (h : Host) (entry : json) : res (list SettingDefinition) :=
  ek ← get (Some entry) "key";
  match ek with
  | Some (JStr key) =>
      enriched ← enrichSettingDefinition h key (Some entry);
      info ← get (Some entry) "info";
      Ok [with_info enriched info]
  | _ => Ok []
  end.

(** One iteration of the loop over [json.settings] (lines 291-343). *)
Definition parse_entry (h : Host) (entry : json) : res (list SettingDefinition) :=
  if negb (truthy entry) then Ok [] else
  eg ← get (Some entry) "group";
  es ← get (Some entry) "settings";
  match eg, es with
  | Some (JStr groupName), Some (JArr members) => parse_group_entry h entry groupName members
  | _, _ => parse_flat_entry h entry
  end.

Definition parseConfiguration (h : Host) (json : option json) : res (list SettingDefinition) :=
  if negb (truthy_opt json) then Ok [] else
  ss ← get json "settings";
  match ss with
  | Some (JArr entries) => dss ← map_res (parse_entry h) entries; Ok (concat dss)
  | _ => Ok []
  end.

(** [getRemoteConfigUrl]: [(get(...) || '').trim()] throws when the setting
    holds a truthy non-string. *)
Definition getRemoteConfigUrl (h : Host) : res string :=
  match js_or_else (config_get h "onByDefault.remoteConfigUrl") (JStr "") with
  | JStr u => Ok (trim u)
  | _ => Err TypeError
  end.

(** [fetchRemoteConfig] (lines 212-240): every failure becomes [null]. *)
Definition fetchRemoteConfig (h : Host) (remoteUrl : string) : option json :=
  match fetch_text h remoteUrl true with
  | Some content => if bool_decide (content = "") then None else json_parse content
  | None => None
  end.

(** [loadBundledConfig] (lines 265-279). *)
Definition loadBundledConfig (h : Host) : option json :=
  match bundled_config h with Some raw => json_parse raw | None => None end.

(** [applyDefaultsToUserSettings] (SchemaInferenceService.ts, lines 207-251):
    each setting in its own try/catch; the result lists the writes made. *)
Definition apply_default (h : Host) (def : SettingDefinition) : res (option (string * json)) :=
  let missing := match sd_requires def with
                 | Some rs => bool_decide (rs <> []) && existsb (fun r => negb (getExtension h r)) rs
                 | None => false
                 end in
  if missing then Ok None else
  info ← inspect h (sd_key def);
  let at_scope f := match info with Some i => f i | None => None end in
  if bool_decide (at_scope globalValue <> None) || bool_decide (at_scope workspaceValue <> None)
     || bool_decide (at_scope workspaceFolderValue <> None) then Ok None else
  let valueToSet :=
    match sd_default def with
    | Some v => Some v
    | None =>
        if is_str (Some (sd_type def)) "boolean" then Some (JBool true)
        else if is_str (Some (sd_type def)) "number" then
          Some (default (JNum js_one) (sd_min def))
        else if is_str (Some (sd_type def)) "string" then
          match sd_options def with Some (o :: _) => Some (opt_value o) | _ => None end
        else None
    end in
  match valueToSet with
  | Some v => _ ← config_update h (sd_key def) v; Ok (Some (sd_key def, v))
  | None => Ok None
  end.

Definition applyDefaultsToUserSettings (h : Host) (defs : list SettingDefinition)
    : res (list (string * json)) :=
  Ok (omap (fun d => try_catch (apply_default h d) None) defs).

(** Effects of [loadConfiguration]: it may throw, and it fires
    [onConfigurationChanged] events, recorded in order. *)
Definition Emit (A : Type) := list ConfigurationLoadResult -> res A * list ConfigurationLoadResult.

Definition emit_ret {A} (a : A) : Emit A := fun ev => (Ok a, ev).
Definition emit_bind {A B} (m : Emit A) (f : A -> Emit B) : Emit B :=
  fun ev => match m ev with (Ok a, ev') => f a ev' | (Err e, ev') => (Err e, ev') end.
Definition emit_lift {A} (m : res A) : Emit A := fun ev => (m, ev).
Definition emit_catch {A} (m : Emit A) (handler : js_error -> Emit A) : Emit A :=
  fun ev => match m ev with (Err e, ev') => handler e ev' | r => r end.
(** [EventEmitter.fire]: VS Code's emitter catches listener errors. *)
Definition fire (r : ConfigurationLoadResult) : Emit unit := fun ev => (Ok tt, (ev ++ [r])%list).

Notation "x <-- m ;; k" := (emit_bind m (fun x => k)) (at level 96, m at next level, right associativity).

(** [loadConfiguration] (lines 30-81); [now] is [new Date().toISOString()]. *)
Definition loadConfiguration (h : Host) (now : string) : Emit ConfigurationLoadResult :=
  emit_catch
    (remoteUrl <-- emit_lift (getRemoteConfigUrl h) ;;
     let json := if bool_decide (remoteUrl = "") then None else fetchRemoteConfig h remoteUrl in
     let source := if truthy_opt json then Remote else Local in
     let json := if truthy_opt json then json else loadBundledConfig h in
     definitions <-- emit_lift (parseConfiguration h json) ;;
     let result := {| definitions := definitions; source := source; timestamp := now |} in
     let _ := try_catch (applyDefaultsToUserSettings h definitions) [] in
     _ <-- fire result ;;
     emit_ret result)
    (fun _ =>
     let result := {| definitions := []; source := Local; timestamp := now |} in
     _ <-- fire result ;;
     emit_ret result).

(** The keys of [globalState] written by the change poller;
    [lastRawText] is [None] when unset or reset to [null]. *)
Record RemoteStore := {
  pendingFlag : option bool;
  lastRawText : option string;
  lastChecked : option string
}.

Definition setPendingFlag (b : bool) (st : RemoteStore) : RemoteStore :=
  {| pendingFlag := Some b; lastRawText := lastRawText st; lastChecked := lastChecked st |}.
Definition setLastChecked (now : string) (st : RemoteStore) : RemoteStore :=
  {| pendingFlag := pendingFlag st; lastRawText := lastRawText st; lastChecked := Some now |}.
Definition setLastRaw (raw : string) (st : RemoteStore) : RemoteStore :=
  {| pendingFlag := pendingFlag st; lastRawText := Some raw; lastChecked := lastChecked st |}.

(** [fetchRawRemoteConfig] (lines 245-260): [useCache: false]. *)
Definition fetchRawRemoteConfig (h : Host) (remoteUrl : string) : option string :=
  fetch_text h remoteUrl false.

(** [checkForRemoteUpdates] (lines 124-161); the [globalState] updates are
    taken not to fail. *)
Definition checkForRemoteUpdates (h : Host) (now : string) (st : RemoteStore) : bool * RemoteStore :=
  match getRemoteConfigUrl h with
  | Err _ => (false, st)
  | Ok remoteUrl =>
      if bool_decide (remoteUrl = "") then (false, setPendingFlag false st) else
      match fetchRawRemoteConfig h remoteUrl with
      | None => (false, st)
      | Some rawText =>
          if bool_decide (rawText = "") then (false, st) else
          let st := setLastChecked now st in
          match lastRawText st with
          | None => (false, setPendingFlag false (setLastRaw rawText st))
          | Some lastKnownRaw =>
              if bool_decide (lastKnownRaw = "") then (false, setPendingFlag false (setLastRaw rawText st))
              else if negb (bool_decide (lastKnownRaw = rawText)) then (true, setPendingFlag true st)
              else (false, setPendingFlag false st)
          end
      end
  end.

End Configuration.

(** ** StateManager.evaluateRecommendations (StateManager.ts, lines 30-81) *)

Section Recommendations.
Context `{RT : JsRuntime}.

Definition compareValues (currentValue recommendedValue : option json) (type : json) : bool :=
  if nullish currentValue then nullish recommendedValue
  else if is_str (Some type) "boolean" then Bool.eqb (truthy_opt currentValue) (truthy_opt recommendedValue)
  else if is_str (Some type) "number" then num_eqb (js_Number currentValue) (js_Number recommendedValue)
  else if is_str (Some type) "string" then
    bool_decide (js_String_opt currentValue = js_String_opt recommendedValue)
  else if is_str (Some type) "json" then
    bool_decide (JSON_stringify currentValue = JSON_stringify recommendedValue)
  else strict_equals currentValue recommendedValue.

Definition with_recommendation (d : SettingDefinition) (has matches : bool) : SettingDefinition :=
  {| sd_key := sd_key d; sd_type := sd_type d; sd_title := sd_title d;
     sd_description := sd_description d; sd_group := sd_group d;
     sd_min := sd_min d; sd_max := sd_max d; sd_step := sd_step d;
     sd_options := sd_options d; sd_requires := sd_requires d;
     sd_default := sd_default d; sd_recommended := sd_recommended d;
     sd_info := sd_info d; sd_hasRecommendation := Some has;
     sd_matchesRecommendation := Some matches |}.

Definition evaluateRecommendations (h : Host) (defs : list SettingDefinition) : list SettingDefinition :=
  map (fun def =>
         let hasRecommendation := negb (bool_decide (sd_recommended def = None)) in
         let matchesRecommendation :=
           if hasRecommendation
           then compareValues (config_get h (sd_key def)) (sd_recommended def) (sd_type def)
           else false in
         with_recommendation def hasRecommendation matchesRecommendation) defs.

End Recommendations.

(** ** Concrete inputs *)

(** A runtime for evaluating the definitions on concrete inputs: the digest
    of a text is the text itself; numbers print as ["0"] and the parsers
    accept nothing (the examples below never reach them). *)
Definition example_runtime : JsRuntime := {|
  number_to_string := fun _ => "0";
  string_to_number := fun _ => NaN;
  json_parse := fun _ => None;
  sha256_hex := fun s => Some s
|}.

(** A host with no other extension installed, the given user settings (at
    the global scope) and a network that answers every request with
    [remote]; no bundled [config.json]. *)
Definition example_host (settings : list (string * json)) (remote : option string) : Host := {|
  extensions_all := [];
  context_extension_id := "example.beast-mode";
  inspect := fun k => Ok (Some {| globalValue := assoc_lookup k settings; workspaceValue := None;
                                  workspaceFolderValue := None; defaultValue := None |});
  config_get := fun k => assoc_lookup k settings;
  config_update := fun _ _ => Ok tt;
  getExtension := fun _ => false;
  fetch_text := fun _ _ => remote;
  bundled_config := None
|}.

Definition example_setting (key : string) (recommended : option json) : SettingDefinition := {|
  sd_key := key; sd_type := JStr "boolean"; sd_title := JStr key; sd_description := JStr key;
  sd_group := JStr "Chat"; sd_min := None; sd_max := None; sd_step := None; sd_options := None;
  sd_requires := None; sd_default := None; sd_recommended := recommended; sd_info := None;
  sd_hasRecommendation := None; sd_matchesRecommendation := None
|}.

Definition fresh_tracker : Tracker.NewSettingsTrackerObj :=
  {| Tracker.state := Tracker.createDefaultState; Tracker.stored := None |}.

Definition example_now : string := "2026-01-01T00:00:00.000Z".

(** [{settings: [{group: "Chat", recommended: true,
                  settings: [{key: "a.b"}, {key: "a.c", recommended: false}]}]}] *)
Definition grouped_recommended_config : json :=
  JObj [("settings", JArr [JObj [("group", JStr "Chat"); ("recommended", JBool true);
          ("settings", JArr [JObj [("key", JStr "a.b")];
                             JObj [("key", JStr "a.c"); ("recommended", JBool false)]])]])].

(** [{settings: [{group: "Chat", requires: "x", settings: [{key: "a.b", requires: "y"}]}]}] *)
Definition grouped_requires_config : json :=
  JObj [("settings", JArr [JObj [("group", JStr "Chat"); ("requires", JStr "x");
          ("settings", JArr [JObj [("key", JStr "a.b"); ("requires", JStr "y")]])]])].

Definition remote_url_setting : list (string * json) :=
  [("onByDefault.remoteConfigUrl", JStr "https://example.com/config.json")].

Definition empty_store : RemoteStore :=
  {| pendingFlag := None; lastRawText := None; lastChecked := None |}.

(** The [type] union of [SettingDefinition] (types/index.ts, line 9). *)
Definition setting_types : list json := [JStr "boolean"; JStr "number"; JStr "string"; JStr "json"].

(** The declared shape of an option: [{ value: string; label?: string }]. *)
Definition option_value_is_string (o : SettingOption) : Prop := exists s, opt_value o = JStr s.

Definition options_ok (os : option (list SettingOption)) : Prop :=
  match os with Some os => Forall option_value_is_string os | None => True end.

(** ** The persisted tracker document (SchemaInferenceService.ts, lines 901-946) *)

Module TrackerStore.
Import Tracker.

(** [NewSettingsTracker.STORAGE_VERSION] *)
Definition STORAGE_VERSION : jsnum := js_one.

Definition seen_fields (m : gmap string string) : list (string * json) :=
  map (fun kv : string * string => (kv.1, JStr kv.2)) (map_to_list m).

(** The document [saveState] writes: [{version, seenSettings, lastConfigHash,
    firstRun, lastUpdated}], as stored by [globalState.update] (a property
    holding [undefined] is not stored). *)
Definition state_document (now : string) (s : NewSettingsState) : json :=
  JObj ([("version", JNum STORAGE_VERSION); ("seenSettings", JObj (seen_fields (seenSettings s)))] ++
        match lastConfigHash s with Some h => [("lastConfigHash", JStr h)] | None => [] end ++
        [("firstRun", JBool (firstRun s)); ("lastUpdated", JStr now)]).

Definition seen_of_fields (fs : list (string * json)) : option (gmap string string) :=
  list_to_map <$> mapM (fun kv : string * json => match kv.2 with JStr s => Some (kv.1, s) | _ => None end) fs.

(** [loadState]. [NewSettingsState] maps keys to strings; a stored document
    whose seen map is an array or holds a non-string value, or whose hash is
    a truthy non-string, is outside it: [None]. [typeof null] is ['object'],
    so a [null] seen map passes the check and becomes [{}]. *)
Definition loadState (stored : option json) : option NewSettingsState :=
  if negb (truthy_opt stored) then Some createDefaultState else
  if negb (strict_equals (get_opt stored "version") (Some (JNum STORAGE_VERSION)))
  then Some createDefaultState else
  match get_opt stored "seenSettings", get_opt stored "firstRun" with
  | Some ((JNull | JArr _ | JObj _) as sv), Some (JBool b) =>
      seen ← (match sv with JNull => Some ∅ | JObj fs => seen_of_fields fs | _ => None end);
      hash ← (match js_or (get_opt stored "lastConfigHash") None with
              | None => Some None
              | Some (JStr h) => Some (Some h)
              | Some _ => None
              end);
      Some {| seenSettings := seen; lastConfigHash := hash; firstRun := b |}
  | _, _ => Some createDefaultState
  end.

(** A new session: the constructor runs [loadState] on the stored document. *)
Definition reload (now : string) (t : NewSettingsTrackerObj) : option NewSettingsState :=
  loadState (state_document now <$> stored t).

End TrackerStore.

(** ** ConfigurationService.refreshConfiguration (ConfigurationService.ts, lines 166-170) *)

Section Refresh.
Context `{RT : JsRuntime}.

(** [lastRawText] reset to [null]. *)
Definition clearLastRaw (st : RemoteStore) : RemoteStore :=
  {| pendingFlag := pendingFlag st; lastRawText := None; lastChecked := lastChecked st |}.

Definition refreshConfiguration (h : Host) (now : string) (st : RemoteStore)
    (ev : list ConfigurationLoadResult) : res unit * RemoteStore * list ConfigurationLoadResult :=
  match loadConfiguration h now ev with
  | (Ok _, ev') => (Ok tt, clearLastRaw (setPendingFlag false st), ev')
  | (Err e, ev') => (Err e, st, ev')
  end.

(** Successive polls ([startPolling]'s [doCheck]), one per timestamp. *)
Fixpoint check_times (h : Host) (nows : list string) (st : RemoteStore) : list bool * RemoteStore :=
  match nows with
  | [] => ([], st)
  | now :: nows =>
      let '(b, st1) := checkForRemoteUpdates h now st in
      let '(bs, st2) := check_times h nows st1 in
      (b :: bs, st2)
  end.

End Refresh.

(** ** StateManager.buildWebviewState (StateManager.ts, lines 16-185) *)

(** [o[k] = v] on a [Record<string, ...>] built from [{}]: an existing key
    keeps its place and takes the new value, a new key is appended
    (enumeration order of integer-like keys is not modelled). *)
Fixpoint record_set {A} (k : string) (v : A) (r : list (string * A)) : list (string * A) :=
  match r with
  | [] => [(k, v)]
  | (k', v') :: r => if bool_decide (k = k') then (k, v) :: r else (k', v') :: record_set k v r
  end.

(** SameValueZero, the equality of [Set]: [NaN] equals itself; arrays and
    objects of two different definitions are different allocations. *)
Definition same_value_zero (a b : json) : bool :=
  match a, b with
  | JNull, JNull => true
  | JBool x, JBool y => Bool.eqb x y
  | JNum NaN, JNum NaN => true
  | JNum x, JNum y => num_eqb x y
  | JStr x, JStr y => bool_decide (x = y)
  | _, _ => false
  end.

(** [Array.from(new Set(l))] on arbitrary values. *)
Fixpoint set_from_values (seen l : list json) : list json :=
  match l with
  | [] => []
  | x :: l => if existsb (same_value_zero x) seen then set_from_values seen l
              else x :: set_from_values (x :: seen) l
  end.

Record RecommendationSummary := {
  total : nat;
  matching : nat;
  differing : nat
}.

(** The state posted to the webview; each definition is paired with its
    computed [missingExtensions]. *)
Record SettingsState := {
  ss_settings : list (string * option json);
  ss_definitions : list (SettingDefinition * list string);
  ss_groups : list json;
  remotePending : bool;
  remoteLastChecked : option string;
  recommendationSummary : RecommendationSummary
}.

Section StateManagerSec.
Context `{RT : JsRuntime}.

Definition collectCurrentSettings (h : Host) (defs : list SettingDefinition) : list (string * option json) :=
  foldl (fun settings d => record_set (sd_key d) (config_get h (sd_key d)) settings) [] defs.

Definition calculateRecommendationSummary (defs : list SettingDefinition) : RecommendationSummary :=
  foldl (fun s d =>
           if bool_decide (sd_hasRecommendation d = Some true) then
             if bool_decide (sd_matchesRecommendation d = Some true)
             then {| total := S (total s); matching := S (matching s); differing := differing s |}
             else {| total := S (total s); matching := matching s; differing := S (differing s) |}
           else s)
        {| total := 0; matching := 0; differing := 0 |} defs.

(** [requires.filter(id => !vscode.extensions.getExtension(id))] *)
Definition missingExtensionsOf (h : Host) (d : SettingDefinition) : list string :=
  filter (fun id => getExtension h id = false) (default [] (sd_requires d)).

(** [!!globalState.get('remoteConfig.hasPendingChanges')] *)
Definition hasPendingRemoteChanges (st : RemoteStore) : bool :=
  match pendingFlag st with Some b => b | None => false end.

(** [globalState.get('remoteConfig.lastChecked') || null] *)
Definition getLastRemoteCheck (st : RemoteStore) : option string :=
  match lastChecked st with Some s => if bool_decide (s = "") then None else Some s | None => None end.

Definition buildWebviewState (h : Host) (st : RemoteStore) (defs : list SettingDefinition) : SettingsState :=
  let evaluatedDefinitions := evaluateRecommendations h defs in
  let enrichedDefinitions := map (fun d => (d, missingExtensionsOf h d)) evaluatedDefinitions in
  {| ss_settings := collectCurrentSettings h (map fst enrichedDefinitions);
     ss_definitions := enrichedDefinitions;
     ss_groups := set_from_values [] (map (fun e => sd_group e.1) enrichedDefinitions);
     remotePending := hasPendingRemoteChanges st;
     remoteLastChecked := getLastRemoteCheck st;
     recommendationSummary := calculateRecommendationSummary (map fst enrichedDefinitions) |}.

End StateManagerSec.

(** ** utils/common.ts: URL checks and cache file names *)

Definition ascii_to_lower (c : ascii) : ascii :=
  let n := nat_of_ascii c in
  if (65 <=? n)%nat && (n <=? 90)%nat then ascii_of_nat (n + 32) else c.

(** A prefix test under the [i] flag: without the [u] flag only ASCII
    letters fold. *)
Fixpoint starts_with_ci (p s : string) : bool :=
  match p, s with
  | EmptyString, _ => true
  | String c p, String d s => bool_decide (ascii_to_lower c = ascii_to_lower d) && starts_with_ci p s
  | String _ _, EmptyString => false
  end.

(** [/^https?:\/\//i.test(url)] *)
Definition isValidHttpUrl (url : string) : bool :=
  starts_with_ci "http://" url || starts_with_ci "https://" url.

(** [Buffer.from(url)]: UTF-8 of the code units (all below 256 here). *)
Definition utf8_encode_unit (c : ascii) : list nat :=
  let n := nat_of_ascii c in
  if (n <? 128)%nat then [n] else [192 + n / 64; 128 + n mod 64]%nat.

Fixpoint utf8_encode (s : string) : list nat :=
  match s with
  | EmptyString => []
  | String c s => utf8_encode_unit c ++ utf8_encode s
  end.

Definition base64_char (n : nat) : ascii :=
  ascii_of_nat (if (n <? 26)%nat then 65 + n
                else if (n <? 52)%nat then 97 + (n - 26)
                else if (n <? 62)%nat then 48 + (n - 52)
                else if Nat.eqb n 62 then 43 else 47)%nat.

(** [.toString('base64')] *)
Fixpoint base64_encode (bs : list nat) : string :=
  match bs with
  | a :: b :: c :: rest =>
      String (base64_char (a / 4)) (String (base64_char ((a mod 4) * 16 + b / 16))
        (String (base64_char ((b mod 16) * 4 + c / 64)) (String (base64_char (c mod 64))
          (base64_encode rest))))
  | [a; b] =>
      String (base64_char (a / 4)) (String (base64_char ((a mod 4) * 16 + b / 16))
        (String (base64_char ((b mod 16) * 4)) "="))
  | [a] => String (base64_char (a / 4)) (String (base64_char ((a mod 4) * 16)) "==")
  | [] => ""
  end%nat.

Definition is_alnum (c : ascii) : bool :=
  let n := nat_of_ascii c in
  (((48 <=? n) && (n <=? 57)) || ((65 <=? n) && (n <=? 90)) || ((97 <=? n) && (n <=? 122)))%nat.

Fixpoint string_filter (p : ascii -> bool) (s : string) : string :=
  match s with
  | EmptyString => EmptyString
  | String c s => if p c then String c (string_filter p s) else string_filter p s
  end.

(** [createSafeFilename]: [.replace(/[^a-zA-Z0-9]/g, '')] then [.substring(0, 32)]. *)
Definition createSafeFilename (url prefix suffix : string) : string :=
  let urlHash := String.substring 0 32 (string_filter is_alnum (base64_encode (utf8_encode url))) in
  prefix ++ urlHash ++ suffix.

(** ** HttpService (SchemaInferenceService.ts, lines 549-781) *)

(** [Constants.USER_AGENT] and [Constants.CACHE_FILE_PREFIX]. *)
Definition USER_AGENT : string := "on-by-default-ext".
Definition CACHE_FILE_PREFIX : string := "remote-config-".

(** What a request yields: body, [etag] header and [res.statusCode]. *)
Record RawResponse := {
  raw_data : string;
  raw_etag : option string;
  raw_status : nat
}.

(** The [HttpResponse] returned by [get]; its [headers] are not modelled
    beyond [etag]. *)
Record HttpResponse := {
  data : string;
  status : nat;
  fromCache : bool;
  etag : option string
}.

(** The cache files of the cache directory (by file name) and the
    [http.etag:<url>] entries of [globalState] (by url). Writes and the
    [globalState] update are taken to succeed. *)
Record HttpCache := {
  cache_files : gmap string string;
  stored_etags : gmap string string
}.

(** The network as seen by [https.request]: the response to a GET of a url
    with the given headers, [None] when the request errors or times out (or
    [new URL] throws). *)
Definition Network := string -> list (string * string) -> option RawResponse.

Definition getCacheFile (url : string) : string := createSafeFilename url CACHE_FILE_PREFIX ".json".

Definition getCachedResponse (c : HttpCache) (url : string) : option string :=
  match cache_files c !! getCacheFile url with
  | Some d => if bool_decide (d = "") then None else Some d
  | None => None
  end.

Definition getStoredEtag (c : HttpCache) (url : string) : option string :=
  match stored_etags c !! url with
  | Some e => if bool_decide (e = "") then None else Some e
  | None => None
  end.

Definition storeResponse (c : HttpCache) (url d : string) (e : option string) : HttpCache :=
  {| cache_files := <[getCacheFile url := d]> (cache_files c);
     stored_etags := match e with
                     | Some e => if bool_decide (e = "") then stored_etags c else <[url := e]> (stored_etags c)
                     | None => stored_etags c
                     end |}.

(** [makeRequest]: non-HTTP urls are refused before any request; the
    default headers come first and [headers] override them. *)
Definition makeRequest (network : Network) (url : string) (headers : list (string * string))
    : option RawResponse :=
  if negb (isValidHttpUrl url) then None else
  let requestHeaders :=
    foldl (fun hs kv => record_set kv.1 kv.2 hs)
          [("User-Agent", USER_AGENT); ("Accept", "application/json")] headers in
  network url requestHeaders.

(** [get]: [None] is a rejected promise. *)
Definition http_get (network : Network) (c : HttpCache) (url : string)
    (headers : list (string * string)) (useCache : bool) : option HttpResponse * HttpCache :=
  let requestHeaders :=
    if useCache then match getStoredEtag c url with
                     | Some e => record_set "If-None-Match" e headers
                     | None => headers
                     end
    else headers in
  let on_error :=
    if useCache
    then (fun d => {| data := d; status := 200; fromCache := true; etag := None |}) <$> getCachedResponse c url
    else None in
  match makeRequest network url requestHeaders with
  | None => (on_error, c)
  | Some r =>
      let st := if bool_decide (raw_status r = 0%nat) then 500%nat else raw_status r in
      match (if Nat.eqb st 304 && useCache then getCachedResponse c url else None) with
      | Some d => (Some {| data := d; status := 200; fromCache := true; etag := raw_etag r |}, c)
      | None =>
          if (st <? 200)%nat || (300 <=? st)%nat then (on_error, c)
          else
            let c' := if useCache && negb (bool_decide (raw_data r = ""))
                      then storeResponse c url (raw_data r) (raw_etag r) else c in
            (Some {| data := raw_data r; status := st; fromCache := false; etag := raw_etag r |}, c')
      end
  end.

(** [isCurrentVersion] (lines 668-682). *)
Definition isCurrentVersion (network : Network) (c : HttpCache) (url : string) : bool :=
  match getStoredEtag c url with
  | None => false
  | Some storedEtag =>
      match fst (http_get network c url [("If-None-Match", storedEtag)] false) with
      | Some r => Nat.eqb (status r) 304
      | None => false
      end
  end.

(** The specification side of the statement on [parseConfiguration] below:
    the keys, in order, that an entry of [json.settings] contributes. *)
Definition entry_keys (entry : json) : list string :=
  if negb (truthy entry) then [] else
  match get_opt (Some entry) "group", get_opt (Some entry) "settings" with
  | Some (JStr _), Some (JArr members) =>
      omap (fun m => if truthy m then match get_opt (Some m) "key" with Some (JStr k) => Some k | _ => None end
                     else None) members
  | _, _ => match get_opt (Some entry) "key" with Some (JStr k) => [k] | _ => [] end
  end.

(** * Properties *)

Module TrackerFacts.
Import Tracker.
Section TrackerFacts.
Context `{RT : JsRuntime}.

Lemma mark_keys_in now keys m k :
  k ∈ keys -> mark_keys now keys m !! k = Some now.
Proof.
  unfold mark_keys. revert m.
  induction keys as [|k' keys IH] using rev_ind; intros m Hk.
  - by apply not_elem_of_nil in Hk.
  - rewrite foldl_app; simpl.
    destruct (decide (k = k')) as [->|Hne]; [rewrite lookup_insert_eq; done|].
    rewrite lookup_insert_ne; [|done]. apply IH.
    apply elem_of_app in Hk as [Hk|Hk]; [done|].
    by apply list_elem_of_singleton in Hk.
Qed.

Lemma mark_keys_notin now keys m k :
  k ∉ keys -> mark_keys now keys m !! k = m !! k.
Proof.
  unfold mark_keys. revert m.
  induction keys as [|k' keys IH] using rev_ind; intros m Hk; [done|].
  rewrite foldl_app; simpl; rewrite lookup_insert_ne.
  - apply IH. intros Hin. apply Hk, elem_of_app. by left.
  - intros ->. apply Hk, elem_of_app. right. by apply list_elem_of_singleton.
Qed.

(** A key present with a non-empty timestamp stays so under [mark_keys]. *)
Lemma mark_keys_keeps now keys m k v :
  now <> "" -> m !! k = Some v -> v <> "" ->
  exists v', mark_keys now keys m !! k = Some v' /\ v' <> "".
Proof.
  intros Hnow Hk Hv. destruct (decide (k ∈ keys)) as [Hin|Hin].
  - exists now. by rewrite mark_keys_in.
  - exists v. by rewrite mark_keys_notin.
Qed.

Lemma mark_keys_is_Some now keys m k :
  is_Some (m !! k) -> is_Some (mark_keys now keys m !! k).
Proof.
  intros Hs. destruct (decide (k ∈ keys)) as [Hin|Hin].
  - rewrite mark_keys_in; eauto.
  - by rewrite mark_keys_notin.
Qed.

Lemma js_sort_strings_perm l1 l2 :
  l1 ≡ₚ l2 -> js_sort_strings l1 = js_sort_strings l2.
Proof.
  intros Hp. unfold js_sort_strings.
  apply (Sorted_unique String.le).
  - apply Sorted_merge_sort, String.le_total.
  - apply Sorted_merge_sort, String.le_total.
  - by rewrite !merge_sort_Permutation.
Qed.

Lemma calculateConfigHash_perm defs1 defs2 :
  map sd_key defs1 ≡ₚ map sd_key defs2 ->
  calculateConfigHash defs1 = calculateConfigHash defs2.
Proof.
  intros Hp. unfold calculateConfigHash. by rewrite (js_sort_strings_perm _ _ Hp).
Qed.

Lemma isSettingNew_false k t :
  isSettingNew k t = false <-> exists v, seenSettings (state t) !! k = Some v /\ v <> "".
Proof.
  unfold isSettingNew. destruct (seenSettings (state t) !! k) as [v|].
  - split.
    + intros H. exists v. split; [done|]. by apply bool_decide_eq_false in H.
    + intros (v' & [= <-] & Hv). by apply bool_decide_eq_false.
  - split; [discriminate|]. by intros (? & ? & ?).
Qed.

Lemma step_seen_keeps o t k :
  op_timestamp_ok o -> op_is_clear o = false ->
  isSettingNew k t = false -> isSettingNew k (step o t) = false.
Proof.
  intros Hts Hcl Hk. apply isSettingNew_false in Hk as (v & Hv & Hne).
  apply isSettingNew_false.
  destruct o as [now defs|defs|now keys|now defs|]; simpl in *; try discriminate.
  - unfold initialize. destruct (firstRun (state t)); simpl;
      [apply (mark_keys_keeps _ _ _ _ v)|exists v]; done.
  - unfold detectNewSettings. case_bool_decide; simpl; eauto.
  - by apply mark_keys_keeps with v.
  - by apply mark_keys_keeps with v.
Qed.

Lemma step_is_Some o t k :
  op_is_clear o = false ->
  is_Some (seenSettings (state t) !! k) -> is_Some (seenSettings (state (step o t)) !! k).
Proof.
  intros Hcl Hs. destruct o as [now defs|defs|now keys|now defs|]; simpl in *; try discriminate.
  - unfold initialize. destruct (firstRun (state t)); simpl; [by apply mark_keys_is_Some|done].
  - unfold detectNewSettings. case_bool_decide; simpl; done.
  - by apply mark_keys_is_Some.
  - by apply mark_keys_is_Some.
Qed.


Lemma count_zero_if_all_seen (defs : list SettingDefinition) t :
  (forall k, k ∈ map sd_key defs -> isSettingNew k t = false) ->
  getNewSettingsCount defs t = 0.
Proof.
  intros Hall. unfold getNewSettingsCount.
  induction defs as [|d defs IH]; [done|]. simpl.
  rewrite filter_cons_False.
  - apply IH. intros k Hk. apply Hall. simpl. by apply elem_of_cons; right.
  - rewrite Hall; [discriminate|]. simpl. apply elem_of_cons; by left.
Qed.

(** C1. First-run rule: with [firstRun] set, [initialize defs] marks every
    key of [defs] as seen, so no key of [defs] is new and the new-settings
    count of [defs] is 0. *)
Theorem initialize_first_run_marks_all (now : string) (defs : list SettingDefinition)
    (t : NewSettingsTrackerObj) :
  firstRun (state t) = true -> now <> "" ->
  (forall k, k ∈ map sd_key defs -> isSettingNew k (initialize now defs t) = false) /\
  getNewSettingsCount defs (initialize now defs t) = 0.
Proof.
  intros Hfirst Hnow.
  assert (Hk : forall k, k ∈ map sd_key defs -> isSettingNew k (initialize now defs t) = false).
  { intros k Hk. unfold initialize. rewrite Hfirst. unfold isSettingNew. simpl.
    rewrite mark_keys_in by done. by apply bool_decide_eq_false. }
  split; [done|]. by apply count_zero_if_all_seen.
Qed.

(** C4. [detectNewSettings]: an unchanged hash of the sorted keys gives [[]]
    and leaves the tracker alone; otherwise the result is the definitions
    whose key is absent from the seen map (all stored timestamps being
    non-empty ISO strings) and the stored hash becomes the new one; a second
    call on the same key set (up to order) returns [[]]. *)
Theorem detectNewSettings_spec (defs : list SettingDefinition) (t : NewSettingsTrackerObj) :
  map_Forall (fun _ ts => ts <> "") (seenSettings (state t)) ->
  (lastConfigHash (state t) = Some (calculateConfigHash defs) ->
     detectNewSettings defs t = ([], t)) /\
  (lastConfigHash (state t) <> Some (calculateConfigHash defs) ->
     fst (detectNewSettings defs t) = filter (fun d => seenSettings (state t) !! sd_key d = None) defs /\
     lastConfigHash (state (snd (detectNewSettings defs t))) = Some (calculateConfigHash defs) /\
     seenSettings (state (snd (detectNewSettings defs t))) = seenSettings (state t)) /\
  (forall defs' : list SettingDefinition, map sd_key defs' ≡ₚ map sd_key defs ->
     fst (detectNewSettings defs' (snd (detectNewSettings defs t))) = []).
Proof.
  intros Hwf. split; [|split].
  - intros Heq. unfold detectNewSettings. by rewrite bool_decide_true.
  - intros Hne. unfold detectNewSettings. rewrite bool_decide_false by done. simpl.
    split; [|done]. apply list_filter_iff. intros d. unfold isSettingNew.
    destruct (seenSettings (state t) !! sd_key d) as [ts|] eqn:E; [|done].
    split; [|discriminate]. intros Hb%bool_decide_eq_true. by apply Hwf in E.
  - intros defs' Hp. unfold detectNewSettings.
    rewrite (calculateConfigHash_perm _ _ Hp).
    destruct (decide (lastConfigHash (state t) = Some (calculateConfigHash defs))) as [E|E].
    + rewrite (bool_decide_true _ E). simpl. by rewrite (bool_decide_true _ E).
    + rewrite (bool_decide_false _ E). simpl. by rewrite bool_decide_true.
Qed.

(** C9. Monotonic seen-set: after [markAsSeen [k]], [k] is not new and stays
    so through any later calls other than [clearState] (each with a
    non-empty ISO timestamp), in particular any [detectNewSettings]; no
    operation other than [clearState] removes a key from the seen map. *)
Theorem markAsSeen_stays_seen (now k : string) (ops : list op) (t : NewSettingsTrackerObj) :
  now <> "" -> Forall op_timestamp_ok ops -> Forall (fun o => op_is_clear o = false) ops ->
  isSettingNew k (markAsSeen now [k] t) = false /\
  isSettingNew k (run ops (markAsSeen now [k] t)) = false /\
  (forall (o : op) (t' : NewSettingsTrackerObj) (k' : string), op_is_clear o = false ->
     is_Some (seenSettings (state t') !! k') -> is_Some (seenSettings (state (step o t')) !! k')).
Proof.
  intros Hnow Hts Hcl.
  assert (H0 : isSettingNew k (markAsSeen now [k] t) = false).
  { unfold isSettingNew, markAsSeen, mark_keys. simpl. rewrite lookup_insert_eq.
    by apply bool_decide_eq_false. }
  split; [done|]. split; [|intros; by apply step_is_Some].
  revert Hts Hcl H0. generalize (markAsSeen now [k] t) as t0.
  induction ops as [|o ops IH]; intros t0 Hts Hcl H0; [done|].
  inversion Hts; inversion Hcl; subst. simpl.
  apply IH; [done|done|]. by apply step_seen_keeps.
Qed.

(** C10. On a non-first run, [initialize defs] only stores the hash of
    [defs]: the seen map is unchanged, so unseen keys stay new, yet the next
    [detectNewSettings defs] short-circuits to [[]]. *)
Theorem initialize_non_first_run (now : string) (defs : list SettingDefinition)
    (t : NewSettingsTrackerObj) :
  firstRun (state t) = false ->
  seenSettings (state (initialize now defs t)) = seenSettings (state t) /\
  lastConfigHash (state (initialize now defs t)) = Some (calculateConfigHash defs) /\
  fst (detectNewSettings defs (initialize now defs t)) = [] /\
  (forall k, isSettingNew k (initialize now defs t) = isSettingNew k t).
Proof.
  intros Hfirst. unfold initialize. rewrite Hfirst. simpl.
  split; [done|]. split; [done|]. split.
  - unfold detectNewSettings. simpl. by rewrite bool_decide_true.
  - intros k. reflexivity.
Qed.

End TrackerFacts.
End TrackerFacts.

Module JsFacts.

Lemma bind_Ok_inv {A B} (m : res A) (f : A -> res B) (b : B) :
  (x ← m; f x) = Ok b -> exists a, m = Ok a /\ f a = Ok b.
Proof. destruct m as [a|e]; simpl; [eauto|discriminate]. Qed.

Lemma assoc_lookup_obj_set_eq k v fs : assoc_lookup k (obj_set k v fs) = v.
Proof.
  induction fs as [|[k' x'] fs IH]; simpl.
  - destruct v; simpl; [by rewrite bool_decide_true|done].
  - case_bool_decide as E; [destruct v|]; simpl; [by rewrite bool_decide_true|done|].
    by rewrite bool_decide_false.
Qed.

Lemma assoc_lookup_obj_set_ne k k' v fs :
  k' <> k -> assoc_lookup k' (obj_set k v fs) = assoc_lookup k' fs.
Proof.
  intros Hne. induction fs as [|[k0 x0] fs IH]; simpl.
  - destruct v; simpl; [by rewrite bool_decide_false|done].
  - case_bool_decide as E; [subst k0; destruct v|]; simpl.
    + by rewrite !bool_decide_false.
    + by rewrite IH, bool_decide_false.
    + by rewrite IH.
Qed.

Lemma num_of_nat_truthy n : num_truthy (num_of_nat n) = negb (Nat.eqb n 0).
Proof.
  unfold num_truthy, num_of_nat. f_equal.
  destruct (Qeq_bool _ _) eqn:E; symmetry.
  - apply Qeq_bool_iff in E. rewrite inject_Z_injective in E. apply Nat.eqb_eq. lia.
  - apply Nat.eqb_neq. intros ->. rewrite Qeq_bool_refl in E. discriminate.
Qed.

Lemma normalizeRequires_strings rs : normalizeRequires (Some (JArr (map JStr rs))) = rs.
Proof.
  unfold normalizeRequires. simpl. induction rs as [|r rs IH]; simpl; [done|]. by f_equal.
Qed.

Lemma set_from_list_elem x seen l :
  x ∈ set_from_list seen l <-> x ∈ l /\ x ∉ seen.
Proof.
  revert seen. induction l as [|y l IH]; intros seen; simpl.
  - split; [intros H; by apply not_elem_of_nil in H|]. intros [H _]. by apply not_elem_of_nil in H.
  - case_bool_decide as Hy.
    + rewrite IH, elem_of_cons. split; [tauto|].
      intros [[->|Hl] Hs]; [contradiction|tauto].
    + rewrite elem_of_cons, IH, !elem_of_cons. split.
      * intros [->|[Hl Hs]]; [tauto|]. split; [tauto|]. intros Hx. apply Hs. by right.
      * intros [[->|Hl] Hs]; [tauto|]. destruct (decide (x = y)) as [->|Hxy]; [tauto|].
        right. split; [done|]. intros [->|Hx]; contradiction.
Qed.

Lemma mergeRequires_elem a b r : r ∈ mergeRequires a b <-> r ∈ a \/ r ∈ b.
Proof.
  unfold mergeRequires. rewrite set_from_list_elem, elem_of_app. split; [tauto|].
  intros H. split; [done|]. apply not_elem_of_nil.
Qed.

Lemma with_info_fields d i :
  sd_key (with_info d i) = sd_key d /\ sd_type (with_info d i) = sd_type d /\
  sd_options (with_info d i) = sd_options d /\ sd_requires (with_info d i) = sd_requires d /\
  sd_recommended (with_info d i) = sd_recommended d.
Proof. destruct i as [[]|]; repeat split. Qed.

End JsFacts.

Module EnricherFacts.

Ltac bind_inv H :=
  let a := fresh "v" in let Ha := fresh "Hv" in
  apply JsFacts.bind_Ok_inv in H as (a & Ha & H); cbv beta zeta in H.

Lemma get_obj fs k : get (Some (JObj fs)) k = Ok (assoc_lookup k fs).
Proof. reflexivity. Qed.

Lemma get_arr_length xs :
  get (Some (JArr xs)) "length" = Ok (Some (JNum (num_of_nat (length xs)))).
Proof. reflexivity. Qed.

Lemma imap_Forall {A B} (P : B -> Prop) (f : nat -> A -> B) (xs : list A) :
  (forall i x, P (f i x)) -> Forall P (imap f xs).
Proof.
  revert f. induction xs as [|x xs IH]; intros f Hf; simpl; constructor; [apply Hf|].
  apply IH. intros i y. apply Hf.
Qed.

Lemma map_res_Forall {A B} (P : B -> Prop) (f : A -> res B) (xs : list A) ys :
  (forall x y, f x = Ok y -> P y) -> map_res f xs = Ok ys -> Forall P ys.
Proof.
  intros Hf. revert ys. induction xs as [|x xs IH]; intros ys H; simpl in H.
  - injection H as <-. constructor.
  - bind_inv H. bind_inv H. injection H as <-. constructor; [by apply (Hf x)|by apply IH].
Qed.

Section Enrich.
Context `{RT : JsRuntime}.

Lemma schema_pass_ok found self p p' :
  schema_pass found self p = Ok p' ->
  (p_type p ∈ setting_types -> p_type p' ∈ setting_types) /\
  (options_ok (p_options p) -> options_ok (p_options p')).
Proof.
  unfold schema_pass. destruct (truthy_opt _); simpl; [|intros [= <-]; tauto].
  intros H. bind_inv H. bind_inv H.
  match type of H with context [match ?e with pair _ _ => _ end] =>
    destruct e as [ty step] eqn:Ety end.
  assert (Hty : ty ∈ setting_types).
  { revert Ety. unfold setting_types. repeat case_match; intros [= <- _]; set_solver. }
  bind_inv H. bind_inv H. bind_inv H. bind_inv H. bind_inv H.
  injection H as <-. simpl. split; [done|]. intros Hp.
  destruct (truthy_opt _ && is_array _) in Hv2.
  - bind_inv Hv2. destruct v1 as [[| | | |xs|]|]; injection Hv2 as <-; try done.
    simpl. apply imap_Forall. intros i x. unfold enum_option. eexists; reflexivity.
  - bind_inv Hv2. bind_inv Hv2. destruct (truthy_opt _ || truthy_opt _); [|by injection Hv2 as <-].
    destruct (js_or _ _) as [[| | | |alts|]|]; try discriminate.
    injection Hv2 as <-. case_bool_decide; [done|]. simpl.
    apply Forall_forall. intros o [x [-> _]]%list_elem_of_fmap. eexists; reflexivity.
Qed.

Lemma inspect_pass_ok h key p :
  (p_type p ∈ setting_types -> p_type (inspect_pass h key p) ∈ setting_types) /\
  p_options (inspect_pass h key p) = p_options p.
Proof.
  unfold inspect_pass. destruct (inspect h key) as [info|]; [|done].
  case_match; [|done].
  match goal with |- context [match ?e with pair _ _ => _ end] =>
    destruct e as [ty step] eqn:Ety end.
  simpl. split; [|done]. intros _.
  revert Ety. unfold setting_types. repeat case_match; intros [= <- _]; set_solver.
Qed.

Lemma override_pass_ok config p p' :
  override_pass config p = Ok p' ->
  (exists ct, get config "type" = Ok ct /\ p_type p' = js_or_else ct (p_type p)) /\
  (options_ok (p_options p) -> options_ok (p_options p')).
Proof.
  unfold override_pass. intros H. bind_inv H. rename v into ct, Hv into Hct.
  do 8 bind_inv H. injection H as <-. simpl. split; [eauto|]. intros Hp.
  destruct (truthy_opt _) in Hv0; [|by injection Hv0 as <-].
  bind_inv Hv0. destruct (truthy_opt _) in Hv0; [|by injection Hv0 as <-].
  apply JsFacts.bind_Ok_inv in Hv0 as (opts & Hopts & Hv0). cbv beta in Hv0.
  injection Hv0 as <-. simpl.
  revert Hopts. unfold js_array_map. destruct v as [[| | | |xs|]|]; try (intros; discriminate).
  apply map_res_Forall. intros x y Hx. unfold option_of_config in Hx.
  bind_inv Hx. bind_inv Hx. injection Hx as <-. eexists; reflexivity.
Qed.

Lemma override_pass_requires fs p p' rs :
  assoc_lookup "requires" fs = Some (JArr (map JStr rs)) -> rs <> [] ->
  override_pass (Some (JObj fs)) p = Ok p' -> p_requires p' = Some rs.
Proof.
  intros Hreq Hne H. unfold override_pass in H. rewrite !get_obj in H. simpl in H.
  rewrite Hreq in H. simpl in H. apply JsFacts.bind_Ok_inv in H as (o & _ & H).
  injection H as <-. simpl.
  pose proof (JsFacts.num_of_nat_truthy (length (map JStr rs))) as T.
  unfold num_truthy, num_of_nat in T. rewrite T, JsFacts.normalizeRequires_strings.
  destruct rs; [done|]. reflexivity.
Qed.

Lemma enrich_inv h key config d :
  enrichSettingDefinition h key config = Ok d ->
  sd_key d = key /\ get config "recommended" = Ok (sd_recommended d) /\
  exists found cdef p1 p3,
    schema_pass found (context_extension_id h)
      {| p_type := JStr "string"; p_options := None; p_min := None; p_max := None;
         p_step := None; p_requires := None; p_default := cdef |} = Ok p1 /\
    override_pass config (inspect_pass h key p1) = Ok p3 /\
    sd_type d = p_type p3 /\ sd_options d = p_options p3 /\ sd_requires d = p_requires p3.
Proof.
  unfold enrichSettingDefinition. intros H. do 8 bind_inv H. injection H as <-. simpl.
  split; [done|]. split; [done|]. eauto 10.
Qed.

End Enrich.
End EnricherFacts.

Module ConfigFacts.
Import EnricherFacts.

Section Config.
Context `{RT : JsRuntime}.

Lemma parse_group_member_inv h g gReq gRec fs key od :
  parse_group_member h g gReq gRec (JObj fs) = Ok od ->
  assoc_lookup "key" fs = Some (JStr key) ->
  exists d, od = Some d /\ sd_key d = key /\
    sd_recommended d = (if bool_decide (assoc_lookup "recommended" fs = None) then gRec
                        else assoc_lookup "recommended" fs) /\
    (let merged := mergeRequires gReq (normalizeRequires
                     (js_or (assoc_lookup "requires" fs)
                        (js_or (assoc_lookup "requiresExtensions" fs)
                           (assoc_lookup "requiresExtension" fs)))) in
     merged <> [] -> sd_requires d = Some merged).
Proof.
  intros H Hk. unfold parse_group_member in H. simpl in H. rewrite Hk in H. simpl in H.
  apply JsFacts.bind_Ok_inv in H as (e & He & H). cbv beta in H.
  injection H as <-. eexists. split; [reflexivity|].
  destruct (JsFacts.with_info_fields e (assoc_lookup "info" fs)) as (-> & _ & _ & -> & ->).
  apply enrich_inv in He as (-> & Hrec & found & cdef & p1 & p3 & _ & Hov & _ & _ & ->).
  split; [done|]. split.
  - unfold member_config in Hrec. rewrite get_obj in Hrec. injection Hrec as <-.
    rewrite JsFacts.assoc_lookup_obj_set_ne by discriminate.
    by rewrite JsFacts.assoc_lookup_obj_set_eq.
  - intros merged Hne. unfold member_config in Hov.
    eapply override_pass_requires; [|exact Hne|exact Hov].
    apply JsFacts.assoc_lookup_obj_set_eq.
Qed.

End Config.
End ConfigFacts.
Module ConfigurationFacts.
Section C.
Context `{RT : JsRuntime}.

(** C2 (as the code has it). In a grouped entry, a member's own [recommended]
    overrides the group's whenever it is defined ([!== undefined]) and the
    group's is inherited otherwise. [requires] is not overridden but merged:
    the list handed to the enricher is [mergeRequires(groupRequires,
    memberRequires)], holding every extension either side lists (group
    entries first, duplicates dropped), and when it is non-empty it is the
    definition's [requires]. *)
Theorem group_member_inheritance (h : Host) (groupName : json) (groupRequires : list string)
    (groupRecommended : option json) (fs : list (string * json)) (key : string)
    (od : option SettingDefinition) :
  parse_group_member h groupName groupRequires groupRecommended (JObj fs) = Ok od ->
  assoc_lookup "key" fs = Some (JStr key) ->
  exists d, od = Some d /\ sd_key d = key /\
    sd_recommended d = (if bool_decide (assoc_lookup "recommended" fs = None) then groupRecommended
                        else assoc_lookup "recommended" fs) /\
    (let memberRequires := normalizeRequires
                             (js_or (assoc_lookup "requires" fs)
                                (js_or (assoc_lookup "requiresExtensions" fs)
                                   (assoc_lookup "requiresExtension" fs))) in
     let merged := mergeRequires groupRequires memberRequires in
     (forall r, r ∈ merged <-> r ∈ groupRequires \/ r ∈ memberRequires) /\
     (merged <> [] -> sd_requires d = Some merged)).
Proof.
  intros H Hk.
  destruct (ConfigFacts.parse_group_member_inv _ _ _ _ _ _ _ H Hk) as (d & -> & Hkey & Hrec & Hreq).
  exists d. do 3 (split; [done|]). split; [|exact Hreq].
  intros r. apply JsFacts.mergeRequires_elem.
Qed.

(** C3. On the grouped entry [{group: "Chat", recommended: true, settings:
    [{key: "a.b"}, {key: "a.c", recommended: false}]}], whatever the host,
    a successful parse yields a definition for [a.b] with [recommended ===
    true] and one for [a.c] with [recommended === false]; the parse succeeds
    whenever no installed extension contributes a schema. *)
Theorem grouped_recommended_override (h : Host) :
  (forall defs, parseConfiguration h (Some grouped_recommended_config) = Ok defs ->
     map sd_key defs = ["a.b"; "a.c"] /\
     map sd_recommended defs = [Some (JBool true); Some (JBool false)]) /\
  (extensions_all h = [] -> exists defs, parseConfiguration h (Some grouped_recommended_config) = Ok defs).
Proof.
  split.
  - intros defs H. unfold parseConfiguration, parse_entry, parse_group_entry, requires_field in H.
    with_strategy opaque [parse_group_member] (simpl in H).
    apply JsFacts.bind_Ok_inv in H as (dss & H1 & H). injection H as <-.
    apply JsFacts.bind_Ok_inv in H1 as (ds' & H2 & H1). injection H1 as <-.
    apply JsFacts.bind_Ok_inv in H2 as (ds & H3 & H2). injection H2 as <-.
    apply JsFacts.bind_Ok_inv in H3 as (o1 & Hm1 & H3). cbv beta in H3.
    apply JsFacts.bind_Ok_inv in H3 as (ys & H4 & H3). injection H3 as <-.
    apply JsFacts.bind_Ok_inv in H4 as (o2 & Hm2 & H4). injection H4 as <-.
    apply ConfigFacts.parse_group_member_inv with (key := "a.b") in Hm1 as (d1 & -> & Hk1 & Hr1 & _);
      [|reflexivity].
    apply ConfigFacts.parse_group_member_inv with (key := "a.c") in Hm2 as (d2 & -> & Hk2 & Hr2 & _);
      [|reflexivity].
    simpl in *. by rewrite Hk1, Hk2, Hr1, Hr2.
  - destruct h; simpl; intros ->. eexists. reflexivity.
Qed.
(** C5. [loadConfiguration] never throws and fires exactly one change event,
    carrying the result it returns. When the URL setting throws, when the
    chosen document fails to parse, or when neither the remote fetch nor the
    bundled [config.json] yields a document, the result has no definitions
    and source [Local]. *)
Theorem loadConfiguration_fires_once (h : Host) (now : string) (ev : list ConfigurationLoadResult) :
  let empty := {| definitions := []; source := Local; timestamp := now |} in
  (exists r, loadConfiguration h now ev = (Ok r, (ev ++ [r])%list)) /\
  (forall e, getRemoteConfigUrl h = Err e -> loadConfiguration h now ev = (Ok empty, (ev ++ [empty])%list)) /\
  (forall u, getRemoteConfigUrl h = Ok u ->
     (u = "" \/ truthy_opt (fetchRemoteConfig h u) = false) ->
     truthy_opt (loadBundledConfig h) = false ->
     loadConfiguration h now ev = (Ok empty, (ev ++ [empty])%list)) /\
  (forall u e, getRemoteConfigUrl h = Ok u ->
     let json := if bool_decide (u = "") then None else fetchRemoteConfig h u in
     let json := if truthy_opt json then json else loadBundledConfig h in
     parseConfiguration h json = Err e ->
     loadConfiguration h now ev = (Ok empty, (ev ++ [empty])%list)).
Proof.
  intros empty. unfold loadConfiguration, emit_catch, emit_bind, emit_lift, emit_ret, fire.
  split; [|split; [|split]].
  - destruct (getRemoteConfigUrl h) as [u|e]; simpl; [|eauto].
    destruct (parseConfiguration h _); simpl; eauto.
  - intros e ->. reflexivity.
  - intros u -> Hu Hb. simpl.
    assert (Hj : truthy_opt (if bool_decide (u = "") then None else fetchRemoteConfig h u) = false).
    { destruct Hu as [->|Hf]; [reflexivity|]. case_bool_decide; [reflexivity|exact Hf]. }
    assert (Hp : parseConfiguration h (loadBundledConfig h) = Ok []).
    { unfold parseConfiguration. by rewrite Hb. }
    rewrite Hj, Hp. reflexivity.
  - intros u e Hu. cbv zeta. intros Hp. rewrite Hu. simpl. by rewrite Hp.
Qed.

End C.
End ConfigurationFacts.

Module RecommendationFacts.
Section R.
Context `{RT : JsRuntime}.

(** C6. [evaluateRecommendations] keeps every definition and, for each one
    with a defined [recommended], sets [hasRecommendation] to true and
    [matchesRecommendation] to: when the current value is [undefined] or
    [null], whether the recommendation is too; otherwise, by type, equality
    of truthiness ([boolean]), of [Number(...)] ([number]), of [String(...)]
    ([string]) or of [JSON.stringify(...)] ([json]). It is a total
    function: no input makes it throw. *)
Theorem evaluateRecommendations_type_aware (h : Host) (defs : list SettingDefinition) :
  length (evaluateRecommendations h defs) = length defs /\
  forall i d, defs !! i = Some d -> sd_recommended d <> None ->
  exists d', evaluateRecommendations h defs !! i = Some d' /\
    sd_key d' = sd_key d /\ sd_type d' = sd_type d /\ sd_recommended d' = sd_recommended d /\
    sd_hasRecommendation d' = Some true /\
    let cur := config_get h (sd_key d) in
    let rec := sd_recommended d in
    (nullish cur = true -> sd_matchesRecommendation d' = Some (nullish rec)) /\
    (nullish cur = false ->
      (sd_type d = JStr "boolean" ->
         sd_matchesRecommendation d' = Some (Bool.eqb (truthy_opt cur) (truthy_opt rec))) /\
      (sd_type d = JStr "number" ->
         sd_matchesRecommendation d' = Some (num_eqb (js_Number cur) (js_Number rec))) /\
      (sd_type d = JStr "string" ->
         sd_matchesRecommendation d' = Some (bool_decide (js_String_opt cur = js_String_opt rec))) /\
      (sd_type d = JStr "json" ->
         sd_matchesRecommendation d' = Some (bool_decide (JSON_stringify cur = JSON_stringify rec)))).
Proof.
  unfold evaluateRecommendations. split; [apply length_map|].
  induction defs as [|d0 defs IH]; intros i d Hi Hrec; [done|].
  destruct i as [|i]; simpl in Hi; [|by apply IH].
  injection Hi as <-. eexists. split; [reflexivity|]. simpl.
  rewrite bool_decide_false by done. simpl.
  do 4 (split; [done|]). split.
  - unfold compareValues. intros ->. reflexivity.
  - unfold compareValues. intros ->.
    repeat split; intros ->; reflexivity.
Qed.

End R.
End RecommendationFacts.

Module EnricherTypeFacts.
Import EnricherFacts.
Section T.
Context `{RT : JsRuntime}.

(** C7 (as the code has it). A definition produced by the enricher has a
    [type] among [boolean], [number], [string], [json] unless the raw entry
    has a truthy [type] field, which is then copied as it is; every option's
    value is a string. *)
Theorem enrich_type_and_options (h : Host) (key : string) (config : option json) (d : SettingDefinition) :
  enrichSettingDefinition h key config = Ok d ->
  (exists ct, get config "type" = Ok ct /\
     (truthy_opt ct = true -> Some (sd_type d) = ct) /\
     (truthy_opt ct = false -> sd_type d ∈ setting_types)) /\
  options_ok (sd_options d).
Proof.
  intros H. apply enrich_inv in H as (_ & _ & found & cdef & p1 & p3 & Hs & Ho & -> & -> & _).
  apply schema_pass_ok in Hs as [Hst Hso].
  destruct (inspect_pass_ok h key p1) as [Hit Hio].
  apply override_pass_ok in Ho as [(ct & Hct & ->) Hoo].
  split.
  - exists ct. split; [done|]. split.
    + destruct ct as [v|]; [|discriminate]. simpl. intros ->. reflexivity.
    + intros Hf. assert (js_or_else ct (p_type (inspect_pass h key p1)) = p_type (inspect_pass h key p1)) as ->.
      { destruct ct as [v|]; [|done]. simpl in *. by rewrite Hf. }
      apply Hit, Hst. unfold setting_types. set_solver.
  - apply Hoo. rewrite Hio. apply Hso. exact I.
Qed.

End T.
End EnricherTypeFacts.

Module RemoteFacts.
Section Rm.
Context `{RT : JsRuntime}.

(** C8 (as the code has it). A check that obtains no text (no URL, a failed
    fetch or an empty body) reports no update and leaves the snapshot and
    the 'last checked' timestamp as they are. A check that obtains non-empty
    text refreshes the timestamp; with no snapshot stored (none, or empty) it
    stores the text, clears the pending flag and reports no update;
    otherwise it sets the pending flag and reports an update exactly when
    the text differs from the snapshot, and clears it otherwise. *)
Theorem checkForRemoteUpdates_spec (h : Host) (now : string) (st : RemoteStore) :
  let r := checkForRemoteUpdates h now st in
  (forall e, getRemoteConfigUrl h = Err e -> r = (false, st)) /\
  (forall u, getRemoteConfigUrl h = Ok u ->
     (u = "" \/ fetchRawRemoteConfig h u = None \/ fetchRawRemoteConfig h u = Some "") ->
     fst r = false /\ lastChecked (snd r) = lastChecked st /\ lastRawText (snd r) = lastRawText st) /\
  (forall u raw, getRemoteConfigUrl h = Ok u -> u <> "" ->
     fetchRawRemoteConfig h u = Some raw -> raw <> "" ->
     lastChecked (snd r) = Some now /\
     ((lastRawText st = None \/ lastRawText st = Some "") ->
        fst r = false /\ pendingFlag (snd r) = Some false /\ lastRawText (snd r) = Some raw) /\
     (forall last, lastRawText st = Some last -> last <> "" ->
        fst r = negb (bool_decide (last = raw)) /\ pendingFlag (snd r) = Some (fst r) /\
        lastRawText (snd r) = Some last)).
Proof.
  intros r. subst r. unfold checkForRemoteUpdates. split; [|split].
  - intros e ->. reflexivity.
  - intros u -> Hu. case_bool_decide as Hu0; [done|].
    destruct Hu as [Hu|[-> | ->]]; [done|done|]. simpl. done.
  - intros u raw -> Hu Hf Hr. rewrite bool_decide_false by done. rewrite Hf.
    rewrite bool_decide_false by done. simpl.
    destruct (lastRawText st) as [last|] eqn:El; simpl.
    + split; [by case_bool_decide; [|case_bool_decide]|]. split.
      * intros [[=]|[= ->]]. by rewrite bool_decide_true.
      * intros last' [= <-] Hl. rewrite bool_decide_false by done.
        by case_bool_decide.
    + split; [done|]. split; [done|]. discriminate.
Qed.

End Rm.
End RemoteFacts.

(** * Witnesses and counterexamples on concrete inputs *)

Module Witnesses.
Import Tracker.
#[local] Existing Instance example_runtime.

Lemma initialize_first_run_witness :
  getNewSettingsCount [example_setting "a.b" None; example_setting "a.c" None]
    (initialize example_now [example_setting "a.b" None; example_setting "a.c" None] fresh_tracker) = 0.
Proof.
  refine (proj2 (TrackerFacts.initialize_first_run_marks_all example_now
                   [example_setting "a.b" None; example_setting "a.c" None] fresh_tracker _ _)).
  - reflexivity.
  - discriminate.
Defined.

Lemma detectNewSettings_witness :
  let t := markAsSeen example_now ["a.b"] fresh_tracker in
  let defs := [example_setting "a.b" None; example_setting "a.c" None] in
  fst (detectNewSettings defs t) = [example_setting "a.c" None] /\
  fst (detectNewSettings defs (snd (detectNewSettings defs t))) = [].
Proof.
  intros t defs.
  assert (Hwf : map_Forall (fun _ ts => ts <> "") (seenSettings (state t))).
  { simpl. apply map_Forall_insert_2; [discriminate|apply map_Forall_empty]. }
  destruct (TrackerFacts.detectNewSettings_spec defs t Hwf) as (_ & Hne & Hidem).
  split.
  - rewrite (proj1 (Hne ltac:(discriminate))). reflexivity.
  - apply Hidem. reflexivity.
Defined.

Lemma markAsSeen_witness :
  isSettingNew "a.b"
    (run [OpDetectNewSettings [example_setting "a.b" None];
          OpInitialize example_now [example_setting "a.c" None];
          OpDetectNewSettings [example_setting "a.b" None; example_setting "a.c" None]]
       (markAsSeen example_now ["a.b"] fresh_tracker)) = false.
Proof.
  refine (proj1 (proj2 (TrackerFacts.markAsSeen_stays_seen example_now "a.b" _ fresh_tracker _ _ _))).
  - discriminate.
  - repeat constructor. discriminate.
  - repeat constructor.
Defined.

Lemma initialize_non_first_run_witness :
  let t := initialize example_now [example_setting "a.b" None] fresh_tracker in
  let defs := [example_setting "a.b" None; example_setting "a.c" None] in
  isSettingNew "a.c" (initialize example_now defs t) = true /\
  fst (detectNewSettings defs (initialize example_now defs t)) = [].
Proof.
  intros t defs.
  destruct (TrackerFacts.initialize_non_first_run example_now defs t eq_refl) as (_ & _ & Hd & Hk).
  split; [|exact Hd]. rewrite Hk. reflexivity.
Defined.

Lemma group_member_inheritance_witness :
  exists od, parse_group_member (example_host [] None) (JStr "Chat") ["x"] (Some (JBool true))
               (JObj [("key", JStr "a.b"); ("requires", JStr "y")]) = Ok od /\
  exists d, od = Some d /\ sd_recommended d = Some (JBool true) /\ sd_requires d = Some ["x"; "y"].
Proof.
  destruct (parse_group_member (example_host [] None) (JStr "Chat") ["x"] (Some (JBool true))
              (JObj [("key", JStr "a.b"); ("requires", JStr "y")])) as [od|e] eqn:E;
    [|vm_compute in E; discriminate].
  exists od. split; [reflexivity|].
  destruct (ConfigurationFacts.group_member_inheritance (example_host [] None) (JStr "Chat") ["x"]
              (Some (JBool true)) [("key", JStr "a.b"); ("requires", JStr "y")] "a.b" od E eq_refl)
    as (d & Hd & _ & Hrec & _ & Hreq).
  exists d. split; [exact Hd|]. split; [exact Hrec|]. apply Hreq. vm_compute. discriminate.
Defined.

Lemma member_requires_not_overriding :
  exists d, parseConfiguration (example_host [] None) (Some grouped_requires_config) = Ok [d] /\
    sd_requires d = Some ["x"; "y"] /\ sd_requires d <> Some ["y"].
Proof.
  eexists. split; [reflexivity|]. split; [reflexivity|]. discriminate.
Defined.

Lemma grouped_recommended_witness :
  exists defs, parseConfiguration (example_host [] None) (Some grouped_recommended_config) = Ok defs /\
    map sd_recommended defs = [Some (JBool true); Some (JBool false)].
Proof.
  destruct (ConfigurationFacts.grouped_recommended_override (example_host [] None)) as [Hall Hok].
  destruct (Hok eq_refl) as [defs Hd]. exists defs. split; [exact Hd|]. apply (Hall defs Hd).
Defined.

Lemma loadConfiguration_witness :
  let empty := {| definitions := []; source := Local; timestamp := example_now |} in
  loadConfiguration (example_host [] None) example_now [] = (Ok empty, [empty]).
Proof.
  refine (proj1 (proj2 (proj2 (ConfigurationFacts.loadConfiguration_fires_once
                                 (example_host [] None) example_now []))) "" eq_refl _ eq_refl).
  by left.
Defined.

Lemma evaluateRecommendations_witness :
  exists d', evaluateRecommendations (example_host [("a.b", JBool false)] None)
               [example_setting "a.b" (Some (JBool true))] !! 0 = Some d' /\
    sd_hasRecommendation d' = Some true /\ sd_matchesRecommendation d' = Some false.
Proof.
  destruct (proj2 (RecommendationFacts.evaluateRecommendations_type_aware
                     (example_host [("a.b", JBool false)] None)
                     [example_setting "a.b" (Some (JBool true))])
              0 (example_setting "a.b" (Some (JBool true))) eq_refl ltac:(discriminate))
    as (d' & Hl & _ & _ & _ & Hhas & _ & Hnn).
  exists d'. split; [exact Hl|]. split; [exact Hhas|].
  rewrite (proj1 (Hnn eq_refl) eq_refl). reflexivity.
Defined.

Lemma enrich_copies_raw_type :
  exists d, enrichSettingDefinition (example_host [] None) "a.b"
              (Some (JObj [("key", JStr "a.b"); ("type", JStr "color")])) = Ok d /\
    sd_type d = JStr "color" /\ sd_type d ∉ setting_types.
Proof.
  eexists. split; [reflexivity|]. split; [reflexivity|].
  unfold setting_types. intros Hin.
  repeat (apply elem_of_cons in Hin as [Hin|Hin]; [discriminate|]).
  by apply not_elem_of_nil in Hin.
Defined.

Lemma enrich_type_and_options_witness :
  let config := Some (JObj [("key", JStr "a.b"); ("options", JArr [JObj [("value", JBool true)]])]) in
  exists d, enrichSettingDefinition (example_host [] None) "a.b" config = Ok d /\
    sd_type d ∈ setting_types /\ options_ok (sd_options d).
Proof.
  intros config.
  destruct (enrichSettingDefinition (example_host [] None) "a.b" config) as [d|e] eqn:E;
    [|vm_compute in E; discriminate].
  exists d. split; [reflexivity|].
  destruct (EnricherTypeFacts.enrich_type_and_options (example_host [] None) "a.b" config d E)
    as [(ct & Hct & _ & Hf) Ho].
  split; [|exact Ho]. apply Hf. simpl in Hct. injection Hct as <-. reflexivity.
Defined.

Lemma remote_check_without_text :
  let r := checkForRemoteUpdates (example_host remote_url_setting None) example_now empty_store in
  fst r = false /\ lastChecked (snd r) = None.
Proof. split; reflexivity. Defined.

Lemma checkForRemoteUpdates_witness :
  let r := checkForRemoteUpdates (example_host remote_url_setting (Some "{}")) example_now empty_store in
  fst r = false /\ lastRawText (snd r) = Some "{}" /\ lastChecked (snd r) = Some example_now.
Proof.
  destruct (proj2 (proj2 (RemoteFacts.checkForRemoteUpdates_spec
                            (example_host remote_url_setting (Some "{}")) example_now empty_store))
              "https://example.com/config.json" "{}" eq_refl ltac:(discriminate) eq_refl ltac:(discriminate))
    as (Hc & Hfirst & _).
  destruct (Hfirst (or_introl eq_refl)) as (Hb & _ & Hraw).
  split; [exact Hb|]. split; [exact Hraw|exact Hc].
Defined.

End Witnesses.
